(** * basket: the user-update reconciliation workflow of [news/tasks.py]

  A shallow embedding of the decision logic of [news/tasks.py] and of
  [FailedTask.retry] from [news/models.py].

  - Python strings are [string]; [None]-or-string values are [option string].
  - Python dicts ([record], [data], the bad-message-id cache) are [gmap]s,
    Python sets are [gset]s.  A [for] loop over a set visits the elements in
    the order of [elements]; Python leaves that order unspecified, so every
    statement below about a list produced by such a loop is up to order.
  - Code that raises is embedded in a state-and-exception monad: the state
    survives a [raise], as the cache write in [send_message] requires.
  - The collaborators that live outside [news/tasks.py] and
    [news/models.py] (the newsletter registry of [news/newsletters.py],
    [views.get_user_data], the ExactTarget client, the clock, the Django
    settings and the Celery broker) are the fields of [Env]. *)

From Stdlib Require Import String Ascii List Bool.
From stdpp Require Import base gmap sets list strings.

Set Warnings "-register-all".

Open Scope string_scope.

(** ** Python string helpers *)

Module Py.

(** [str.lower()] on the ASCII range. *)
Definition lower_ascii (c : ascii) : ascii :=
  let n := nat_of_ascii c in
  if (65 <=? n)%nat && (n <=? 90)%nat then ascii_of_nat (n + 32) else c.

Fixpoint lower (s : string) : string :=
  match s with
  | EmptyString => EmptyString
  | String c r => String (lower_ascii c) (lower r)
  end.

(** [str.upper()] on the ASCII range. *)
Definition upper_ascii (c : ascii) : ascii :=
  let n := nat_of_ascii c in
  if (97 <=? n)%nat && (n <=? 122)%nat then ascii_of_nat (n - 32) else c.

Fixpoint upper (s : string) : string :=
  match s with
  | EmptyString => EmptyString
  | String c r => String (upper_ascii c) (upper r)
  end.

(** [s[:n]] *)
Fixpoint take (n : nat) (s : string) : string :=
  match n, s with
  | S k, String c r => String c (take k r)
  | _, _ => EmptyString
  end.

(** [s.startswith(p)] *)
Fixpoint startswith (p s : string) : bool :=
  match p, s with
  | EmptyString, _ => true
  | String a p', String b s' => if Ascii.eqb a b then startswith p' s' else false
  | String _ _, EmptyString => false
  end.

(** [needle in hay] for two strings. *)
Fixpoint contains (needle hay : string) : bool :=
  startswith needle hay ||
  match hay with
  | EmptyString => false
  | String _ r => contains needle r
  end.

(** The characters [str.strip()] removes. *)
Definition is_space (c : ascii) : bool :=
  let n := nat_of_ascii c in
  (n =? 32)%nat || ((9 <=? n)%nat && (n <=? 13)%nat).

Fixpoint lstrip (s : string) : string :=
  match s with
  | String c r => if is_space c then lstrip r else s
  | EmptyString => EmptyString
  end.

Fixpoint rstrip (s : string) : string :=
  match s with
  | EmptyString => EmptyString
  | String c r =>
      match rstrip r with
      | EmptyString => if is_space c then EmptyString else String c EmptyString
      | r' => String c r'
      end
  end.

Definition strip (s : string) : string := rstrip (lstrip s).

(** [s.split(',')]: the accumulator [cur] holds the field being read. *)
Fixpoint split_comma_from (cur : string) (s : string) : list string :=
  match s with
  | EmptyString => [cur]
  | String c r =>
      if Ascii.eqb c ","%char then cur :: split_comma_from EmptyString r
      else split_comma_from (cur ++ String c EmptyString) r
  end.

Definition split_comma (s : string) : list string :=
  split_comma_from EmptyString s.

(** Truthiness of a string, and of a string-or-[None]. *)
Definition truthy (s : string) : bool := negb (String.eqb s "").

Definition truthy_opt (o : option string) : bool :=
  match o with
  | Some s => truthy s
  | None => false
  end.

End Py.

(** ** Constants of [news/tasks.py] *)

Definition SUBSCRIBE : string := "SUBSCRIBE".
Definition UNSUBSCRIBE : string := "UNSUBSCRIBE".
Definition SET : string := "SET".

Definition CONFIRMATION_MESSAGE : string := "confirmation_email".
Definition RECOVERY_MESSAGE_ID : string := "recovery_message".
Definition FXACCOUNT_WELCOME : string := "FxAccounts_Welcome".
Definition FFOS_VENDOR_ID : string := "FIREFOX_OS".
Definition FFAY_VENDOR_ID : string := "MOZILLA_AND_YOU".
Definition MSG_USER_NOT_FOUND : string := "User not found".

(** Return codes for [update_user] *)
Definition UU_ALREADY_CONFIRMED : nat := 1.
Definition UU_EXEMPT_PENDING : nat := 2.
Definition UU_EXEMPT_NEW : nat := 3.
Definition UU_MUST_CONFIRM_PENDING : nat := 4.
Definition UU_MUST_CONFIRM_NEW : nat := 5.

(** ** Data model *)

(** The exceptions the modelled code raises or lets through.
    [NewsletterException] and [URLError] are what the vendor client raises;
    [KeyError] and [IndexError] come from unguarded subscripts;
    [IntegrityError] is what the database raises when a unique column would
    hold a value twice. *)
Inductive exn : Type :=
| NewsletterException (message : string)
| URLError (reason : string)
| BasketError (msg : string)
| KeyError (key : string)
| IndexError
| IntegrityError (column : string).

(** The columns of [models.Newsletter] that [news/tasks.py] reads. *)
Record Newsletter : Type := {
  slug : string;
  active : bool;
  welcome : string;
  vendor_id : string;
  languages : string;
  requires_double_optin : bool;
  order : Z;
  confirm_message : string
}.

(** [Newsletter.language_list] *)
Definition language_list (nl : Newsletter) : list string :=
  map Py.strip (Py.split_comma (languages nl)).

(** The dict returned by [views.get_user_data].  The keys that the source
    reads with [.get] or guards with [in] are options; [token], [master],
    [pending] and [confirmed] are subscripted without a guard once the
    status is known to be ['ok']. *)
Record user_data : Type := {
  ud_email : option string;
  ud_token : string;
  ud_master : bool;
  ud_pending : bool;
  ud_confirmed : bool;
  ud_lang : option string;
  ud_status : option string;
  ud_format : option string;
  ud_newsletters : option (list string)
}.

(** A call issued to the ExactTarget client. *)
Inductive vendor_call : Type :=
| trigger_send (message_id : string) (email token format : string)
| add_record (target_et : string) (record : gmap string string).

(** Is the call a triggered send? *)
Definition is_trigger_send (c : vendor_call) : bool :=
  match c with
  | trigger_send _ _ _ _ => true
  | add_record _ _ => false
  end.

(** JSON values, as stored in [FailedTask.args] and [FailedTask.kwargs]. *)
Inductive json : Type :=
| JNull
| JBool (b : bool)
| JNum (n : Z)
| JStr (s : string)
| JList (l : list json)
| JDict (d : list (string * json)).

(** A row of [models.FailedTask]; [pk] is the row's primary key. *)
Record FailedTask : Type := {
  pk : nat;
  task_id : string;
  name : string;
  args : list json;
  kwargs : list (string * json);
  exc : option string;
  einfo : option string
}.

(** A task message: what [subtask(name, args=..., kwargs=...)] describes and
    [apply_async] publishes; [retries] is the request's retry counter. *)
Record subtask : Type := {
  st_name : string;
  st_args : list json;
  st_kwargs : list (string * json);
  st_retries : nat
}.

(** The mutable world: the [bad_message_ids] cache, the calls issued to the
    vendor so far (failed ones included), the [FailedTask] table and the
    messages published to the broker. *)
Record world : Type := {
  BAD_MESSAGE_ID_CACHE : gmap string bool;
  vendor_log : list vendor_call;
  failed_tasks : list FailedTask;
  broker_queue : list subtask
}.

(** The world after one more call has been issued to the vendor. *)
Definition log_call (c : vendor_call) (w : world) : world :=
  {| BAD_MESSAGE_ID_CACHE := BAD_MESSAGE_ID_CACHE w;
     vendor_log := vendor_log w ++ [c];
     failed_tasks := failed_tasks w;
     broker_queue := broker_queue w |}.

(** The world after a write to the [bad_message_ids] cache. *)
Definition set_bad_message_id (message_id : string) (v : bool) (w : world) : world :=
  {| BAD_MESSAGE_ID_CACHE := <[message_id := v]> (BAD_MESSAGE_ID_CACHE w);
     vendor_log := vendor_log w;
     failed_tasks := failed_tasks w;
     broker_queue := broker_queue w |}.

(** The collaborators outside the two modelled modules. *)
Record Env : Type := {
  (** [news.newsletters.newsletter_field(slug)]: the vendor field of a slug,
      [None] for a slug the registry does not know *)
  newsletter_field : string -> option string;
  (** [news.newsletters.newsletter_slugs()] *)
  newsletter_slugs : list string;
  (** [news.newsletters.is_supported_newsletter_language(lang)] *)
  is_supported_newsletter_language : string -> bool;
  (** the rows of [Newsletter.objects], in the model's default ordering *)
  Newsletter_objects : list Newsletter;
  (** [views.get_user_data(email=..., token=...)] *)
  get_user_data : option string -> option string -> option user_data;
  (** the ExactTarget client: its reply to a call, given the calls made
      before; [None] is a normal return *)
  vendor : list vendor_call -> vendor_call -> option exn;
  (** the Celery broker: its reply to a published message *)
  broker : list subtask -> subtask -> option exn;
  (** [date.today().strftime('%Y-%m-%d')] and [gmttime()] *)
  today : string;
  gmttime : string;
  (** [settings.EXACTTARGET_DATA], [_OPTIN_STAGE], [_CONFIRMATION] *)
  EXACTTARGET_DATA : string;
  EXACTTARGET_OPTIN_STAGE : string;
  EXACTTARGET_CONFIRMATION : string
}.

(** ** The state-and-exception monad *)

Definition M (A : Type) : Type := world -> (exn + A) * world.

Definition ret {A : Type} (a : A) : M A := fun w => (inr a, w).

Definition raise {A : Type} (e : exn) : M A := fun w => (inl e, w).

Definition bind {A B : Type} (m : M A) (k : A -> M B) : M B :=
  fun w =>
    match m w with
    | (inr a, w') => k a w'
    | (inl e, w') => (inl e, w')
    end.

(** [try: m except Exception as e: ...]: the outcome of [m] as a value. *)
Definition try {A : Type} (m : M A) : M (exn + A) :=
  fun w => let '(r, w') := m w in (inr r, w').

Declare Scope py_scope.
Delimit Scope py_scope with py.
Notation "x <- m ;; k" := (bind m (fun x => k))
  (at level 100, m at next level, right associativity) : py_scope.
Notation "m ;;; k" := (bind m (fun _ => k))
  (at level 100, right associativity) : py_scope.
Open Scope py_scope.

(** A computation that, when it returns at all, returns [x]. *)
Definition only_returns {A : Type} (m : M A) (x : A) : Prop :=
  forall w v w', m w = (inr v, w') -> v = x.

(** A computation that issues no triggered send, however it ends: the calls
    it adds to the vendor log are all record updates. *)
Definition sends_nothing {A : Type} (m : M A) : Prop :=
  forall w, exists calls,
    vendor_log (m w).2 = (vendor_log w ++ calls)%list /\
    Forall (fun c => is_trigger_send c = false) calls.

(** [for x in l: body x] *)
Fixpoint for_each {A : Type} (l : list A) (body : A -> M unit) : M unit :=
  match l with
  | [] => ret tt
  | x :: rest => body x ;;; for_each rest body
  end.

(** [repr] of a plain string. *)
Definition repr (s : string) : string := "'" ++ s ++ "'".

(** [isinstance(e, (URLError, NewsletterException))] *)
Definition is_retryable (e : exn) : bool :=
  match e with
  | NewsletterException _ | URLError _ => true
  | _ => false
  end.

(** What running a task wrapped by [et_task] ends in: a return value, a call
    of [wrapped.retry(exc=e)], or an exception that escapes the wrapper. *)
Inductive task_result (A : Type) : Type :=
| Returned (retval : A)
| Retry (exc : exn)
| Escaped (exc : exn).
Arguments Returned {A} retval.
Arguments Retry {A} exc.
Arguments Escaped {A} exc.

(** [et_task(func)]: the body of [wrapped]. *)
Definition et_task {A : Type} (func : M A) : world -> task_result A * world :=
  fun w =>
    match func w with
    | (inr v, w') => (Returned v, w')
    | (inl e, w') => if is_retryable e then (Retry e, w') else (Escaped e, w')
    end.

(** Calling a wrapped task as a plain function ([confirm_user(...)] inside
    [update_user]): with no worker around, [retry(exc=e)] raises [e]. *)
Definition call_directly {A : Type} (t : world -> task_result A * world) : M A :=
  fun w =>
    match t w with
    | (Returned v, w') => (inr v, w')
    | (Retry e, w') => (inl e, w')
    | (Escaped e, w') => (inl e, w')
    end.

(** [[x.strip() for x in data.get('newsletters', '').split(',')]] *)
Definition requested_newsletters (data : gmap string string) : list string :=
  map Py.strip (Py.split_comma (default "" (data !! "newsletters"))).

Section Tasks.

Variable E : Env.

(** A call to the ExactTarget client: logged, then answered by [vendor]. *)
Definition vendor_do (c : vendor_call) : M unit :=
  fun w =>
    match vendor E (vendor_log w) c with
    | None => (inr tt, log_call c w)
    | Some e => (inl e, log_call c w)
    end.

(** [BAD_MESSAGE_ID_CACHE.get(message_id, False)] *)
Definition cache_get (message_id : string) : M bool :=
  fun w => (inr (default false (BAD_MESSAGE_ID_CACHE w !! message_id)), w).

(** [BAD_MESSAGE_ID_CACHE.set(message_id, True)] *)
Definition cache_set (message_id : string) (v : bool) : M unit :=
  fun w => (inr tt, set_bad_message_id message_id v w).

(** ** [parse_newsletters] *)

(** [cur_newsletters is None or nl not in cur_newsletters] *)
Definition unknown_or_absent (cur_newsletters : option (gset string)) (nl : string) : bool :=
  match cur_newsletters with
  | None => true
  | Some cur => bool_decide (nl ∉ cur)
  end.

(** [cur_newsletters is None or nl in cur_newsletters] *)
Definition unknown_or_present (cur_newsletters : option (gset string)) (nl : string) : bool :=
  match cur_newsletters with
  | None => true
  | Some cur => bool_decide (nl ∈ cur)
  end.

(** [record['%s_FLG' % name] = flag; record['%s_DATE' % name] = today] *)
Definition set_flag (record : gmap string string) (name flag : string) : gmap string string :=
  <[name ++ "_DATE" := today E]> (<[name ++ "_FLG" := flag]> record).

(** The first loop, [for nl in newsletters], threading [record] and
    [to_subscribe]. *)
Fixpoint subscribe_loop (cur_newsletters : option (gset string))
    (record : gmap string string) (to_subscribe : list string)
    (newsletters : list string) : gmap string string * list string :=
  match newsletters with
  | [] => (record, to_subscribe)
  | nl :: rest =>
      let name := newsletter_field E nl in
      if Py.truthy_opt name && unknown_or_absent cur_newsletters nl
      then subscribe_loop cur_newsletters (set_flag record (default "" name) "Y")
             (to_subscribe ++ [nl]) rest
      else subscribe_loop cur_newsletters record to_subscribe rest
  end.

(** The second loop, [for nl in unsubs]. *)
Fixpoint unsubscribe_loop (cur_newsletters : option (gset string))
    (record : gmap string string) (to_unsubscribe : list string)
    (unsubs : list string) : gmap string string * list string :=
  match unsubs with
  | [] => (record, to_unsubscribe)
  | nl :: rest =>
      let name := newsletter_field E nl in
      if Py.truthy_opt name && unknown_or_present cur_newsletters nl
      then unsubscribe_loop cur_newsletters (set_flag record (default "" name) "N")
             (to_unsubscribe ++ [nl]) rest
      else unsubscribe_loop cur_newsletters record to_unsubscribe rest
  end.

(** The value of [unsubs] when the second loop starts. *)
Definition unsubs_of (type : string) (newsletters : list string)
    (cur_newsletters : option (gset string)) : list string :=
  if String.eqb type SET then
    match cur_newsletters with
    | Some cur => elements (cur ∖ list_to_set newsletters)
    | None =>
        let subs : gset string := list_to_set newsletters in
        let all : gset string := list_to_set (newsletter_slugs E) in
        elements (all ∖ subs)
    end
  else newsletters.

(** [parse_newsletters(record, type, newsletters, cur_newsletters)].  The
    source mutates the caller's [record]; here the updated dict is returned
    next to [(to_subscribe, to_unsubscribe)]. *)
Definition parse_newsletters (record : gmap string string) (type : string)
    (newsletters : list string) (cur_newsletters : option (gset string))
    : gmap string string * (list string * list string) :=
  let '(record, to_subscribe) :=
    if String.eqb type SUBSCRIBE || String.eqb type SET
    then subscribe_loop cur_newsletters record [] newsletters
    else (record, []) in
  let '(record, to_unsubscribe) :=
    if String.eqb type UNSUBSCRIBE || String.eqb type SET
    then unsubscribe_loop cur_newsletters record []
           (unsubs_of type newsletters cur_newsletters)
    else (record, []) in
  (record, (to_subscribe, to_unsubscribe)).

(** ** [apply_updates], [send_message], [mogrify_message_id] *)

Definition apply_updates (target_et : string) (record : gmap string string) : M unit :=
  vendor_do (add_record target_et record).

Definition send_message (message_id email token format : string) : M unit :=
  bad <- cache_get message_id ;;
  if bad then ret tt
  else
    r <- try (vendor_do (trigger_send message_id email token format)) ;;
    match r with
    | inr _ => ret tt
    | inl (NewsletterException message) =>
        if Py.contains "Invalid Customer Key" message then
          cache_set message_id true ;;;
          raise (BasketError ("ET says no such message ID: " ++ repr message_id))
        else if Py.contains "There are no valid subscribers." message then
          raise (BasketError "ET says: there are no valid subscribers.")
        else raise (NewsletterException message)
    | inl e => raise e
    end.

Definition mogrify_message_id (message_id lang format : string) : string :=
  let result :=
    if Py.truthy lang
    then Py.take 2 (Py.lower lang) ++ "_" ++ message_id
    else message_id in
  if String.eqb format "T" then result ++ "_T" else result.

(** [d[key]] on a key that may be missing. *)
Definition subscript {A : Type} (v : option A) (key : string) : M A :=
  match v with
  | Some a => ret a
  | None => raise (KeyError key)
  end.

(** ** [send_confirm_notice], [send_welcomes], [confirm_user] *)

(** [Newsletter.objects.filter(slug__in=slugs)] *)
Definition filter_slug_in (slugs : list string) (rows : list Newsletter) : list Newsletter :=
  List.filter (fun nl => bool_decide (slug nl ∈ slugs)) rows.

Definition send_confirm_notice (email token lang format : string)
    (newsletter_slugs : list string) : M unit :=
  let lang := if Py.truthy lang then lang else "en" in
  if negb (is_supported_newsletter_language E lang) then
    raise (BasketError ("Cannot send confirmation in unsupported language '" ++ lang ++ "'."))
  else
    let newsletters :=
      firstn 1 (List.filter (fun nl => negb (String.eqb (confirm_message nl) ""))
                  (filter_slug_in newsletter_slugs (Newsletter_objects E))) in
    let welcome :=
      match newsletters with
      | nl :: _ => confirm_message nl
      | [] => CONFIRMATION_MESSAGE
      end in
    let welcome := mogrify_message_id welcome lang format in
    send_message welcome email token format.

(** The loop of [send_welcomes] that collects [welcomes_to_send]. *)
Fixpoint collect_welcomes (ud : user_data) (format : string)
    (welcomes_to_send : gset string) (newsletters : list Newsletter) : gset string :=
  match newsletters with
  | [] => welcomes_to_send
  | nl :: rest =>
      let welcome := Py.strip (welcome nl) in
      if negb (Py.truthy welcome) then collect_welcomes ud format welcomes_to_send rest
      else
        let languages := map (fun lang => Py.lower (Py.take 2 lang)) (language_list nl) in
        let lang_code := Py.lower (Py.take 2 (default "en" (ud_lang ud))) in
        let lang_code := if bool_decide (lang_code ∈ languages) then lang_code else "en" in
        let welcome := mogrify_message_id welcome lang_code format in
        collect_welcomes ud format (welcomes_to_send ∪ {[welcome]}) rest
  end.

Definition send_welcomes (ud : user_data) (newsletter_slugs : list string)
    (format : string) : M unit :=
  match newsletter_slugs with
  | [] => ret tt
  | _ :: _ =>
      let newsletters := filter_slug_in newsletter_slugs (Newsletter_objects E) in
      let newsletters :=
        if existsb (fun nl => String.eqb (vendor_id nl) FFOS_VENDOR_ID) newsletters
        then List.filter (fun nl => negb (String.eqb (vendor_id nl) FFAY_VENDOR_ID)) newsletters
        else newsletters in
      let welcomes_to_send := collect_welcomes ud format ∅ newsletters in
      for_each (elements welcomes_to_send) (fun welcome =>
        email <- subscript (ud_email ud) "email" ;;
        send_message welcome email (ud_token ud) format)
  end.

(** The function decorated into the task [confirm_user]. *)
Definition confirm_user_body (token : string) (user_data : option user_data) : M unit :=
  let user_data :=
    match user_data with
    | None => get_user_data E None (Some token)
    | Some _ => user_data
    end in
  match user_data with
  | None => raise (BasketError MSG_USER_NOT_FOUND)
  | Some ud =>
      status <- subscript (ud_status ud) "status" ;;
      if String.eqb status "error" then raise (NewsletterException "error getting user data")
      else if ud_confirmed ud then ret tt
      else if negb (Py.truthy_opt (ud_email ud)) then raise (BasketError "token has no email in ET")
      else
        apply_updates (EXACTTARGET_CONFIRMATION E) {[ "TOKEN" := token ]} ;;;
        newsletters <- subscript (ud_newsletters ud) "newsletters" ;;
        send_welcomes ud newsletters (default "H" (ud_format ud))
  end.

Definition confirm_user (token : string) (user_data : option user_data)
    : world -> task_result unit * world :=
  et_task (confirm_user_body token user_data).

(** ** [update_user] *)

(** [if field in data: record[target] = data[field]] *)
Definition copy_field (data : gmap string string) (field target : string)
    (record : gmap string string) : gmap string string :=
  match data !! field with
  | Some v => <[target := v]> record
  | None => record
  end.

(** [exempt_from_confirmation] *)
Definition exempt_from_confirmation (optin : bool) (to_subscribe : list string) : bool :=
  optin ||
  existsb (fun nl => bool_decide (slug nl ∈ to_subscribe) && negb (requires_double_optin nl))
    (Newsletter_objects E).

(** The minimal dict [update_user] makes up for a user the vendor does not
    know. *)
Definition new_user_data (email token lang : string) : user_data :=
  {| ud_email := Some email; ud_token := token; ud_master := false;
     ud_pending := false; ud_confirmed := false; ud_lang := Some lang;
     ud_status := Some "ok"; ud_format := None; ud_newsletters := None |}.

(** [user_data['lang'] = lang] *)
Definition with_lang (ud : user_data) (lang : string) : user_data :=
  {| ud_email := ud_email ud; ud_token := ud_token ud; ud_master := ud_master ud;
     ud_pending := ud_pending ud; ud_confirmed := ud_confirmed ud; ud_lang := Some lang;
     ud_status := ud_status ud; ud_format := ud_format ud;
     ud_newsletters := ud_newsletters ud |}.

(** The user's current settings as [update_user] obtains them: the vendor's
    dict, the made-up one for a new user, or [NewsletterException] when the
    status is not ['ok'].  (The exception text of the source ends in the
    [repr] of the dict, which is left out.) *)
Definition fetch_user_data (email token lang : string) : M user_data :=
  match get_user_data E None (Some token) with
  | None => ret (new_user_data email token lang)
  | Some ud =>
      if negb (String.eqb (default "error" (ud_status ud)) "ok")
      then raise (NewsletterException "Some error with Exact Target")
      else ret ud
  end.

(** The function decorated into the task [update_user]. *)
Definition update_user_body (data : gmap string string) (email token : string)
    (created : bool) (type : string) (optin : bool) : M nat :=
  let record : gmap string string :=
    <["MODIFIED_DATE_" := gmttime E]> (<["EMAIL_PERMISSION_STATUS_" := "I"]>
      (<["TOKEN" := token]> (<["EMAIL_ADDRESS_" := email]> ∅))) in
  let record :=
    copy_field data "source_url" "SOURCE_URL"
      (copy_field data "lang" "LANGUAGE_ISO2"
         (copy_field data "country" "COUNTRY_" record)) in
  let lang := default "" (record !! "LANGUAGE_ISO2") in
  user_data <- fetch_user_data email token lang ;;
  ul <- (if Py.truthy lang then ret (with_lang user_data lang, lang)
         else l <- subscript (ud_lang user_data) "lang" ;; ret (user_data, l)) ;;
  let '(user_data, lang) := ul in
  let '(fmt, record) :=
    match data !! "format" with
    | Some f =>
        let fmt := if Py.startswith "T" (Py.upper f) then "T" else "H" in
        (fmt, <["EMAIL_FORMAT_" := fmt]> record)
    | None => (default "H" (ud_format user_data), record)
    end in
  let newsletters := requested_newsletters data in
  let cur_newsletters : option (gset string) := list_to_set <$> ud_newsletters user_data in
  let '(record, (to_subscribe, to_unsubscribe)) :=
    parse_newsletters record type newsletters cur_newsletters in
  let exempt := exempt_from_confirmation optin to_subscribe in
  let should_send_welcomes :=
    String.eqb (default "Y" (data !! "trigger_welcome")) "Y" && String.eqb type SUBSCRIBE in
  let MASTER := EXACTTARGET_DATA E in
  let OPT_IN := EXACTTARGET_OPTIN_STAGE E in
  if ud_confirmed user_data then
    let target_et := if ud_master user_data then MASTER else OPT_IN in
    apply_updates target_et record ;;;
    (if should_send_welcomes then send_welcomes user_data to_subscribe fmt else ret tt) ;;;
    ret UU_ALREADY_CONFIRMED
  else if exempt then
    if ud_pending user_data then
      apply_updates OPT_IN record ;;;
      call_directly (confirm_user (ud_token user_data) (Some user_data)) ;;;
      ret UU_EXEMPT_PENDING
    else
      let record := <["CREATED_DATE_" := gmttime E]> record in
      apply_updates MASTER record ;;;
      (if should_send_welcomes then send_welcomes user_data to_subscribe fmt else ret tt) ;;;
      ret UU_EXEMPT_NEW
  else
    let '(return_code, record) :=
      if ud_pending user_data then (UU_MUST_CONFIRM_PENDING, record)
      else
        let record := <["CREATED_DATE_" := gmttime E]> record in
        let record := <["SubscriberKey" := default "" (record !! "TOKEN")]> record in
        let record := <["EmailAddress" := default "" (record !! "EMAIL_ADDRESS_")]> record in
        (UU_MUST_CONFIRM_NEW, record) in
    apply_updates OPT_IN record ;;;
    send_confirm_notice email token lang fmt to_subscribe ;;;
    ret return_code.

Definition update_user (data : gmap string string) (email token : string)
    (created : bool) (type : string) (optin : bool) : world -> task_result nat * world :=
  et_task (update_user_body data email token created type optin).

(** ** Two more tasks, as replayable operations *)

Definition update_custom_unsub_body (token reason : string) : M unit :=
  vendor_do (add_record (EXACTTARGET_DATA E)
               (<["UNSUBSCRIBE_REASON" := reason]> (<["TOKEN" := token]> ∅))).

Definition update_custom_unsub (token reason : string) : world -> task_result unit * world :=
  et_task (update_custom_unsub_body token reason).

Definition send_recovery_message_task_body (email : string) : M unit :=
  match get_user_data E (Some email) None with
  | None => ret tt
  | Some user_data =>
      let lang := default "en" (ud_lang user_data) in
      let lang := if Py.truthy lang then lang else "en" in
      let format := default "H" (ud_format user_data) in
      let format := if Py.truthy format then format else "H" in
      let message_id := mogrify_message_id RECOVERY_MESSAGE_ID lang format in
      send_message message_id email (ud_token user_data) format
  end.

Definition send_recovery_message_task (email : string) : world -> task_result unit * world :=
  et_task (send_recovery_message_task_body email).

(** ** [FailedTask] and [ETTask] *)

(** [ETTask.max_retries] *)
Definition max_retries : nat := 6.

Definition _is_query_dict (arg : json) : bool :=
  match arg with
  | JDict d => forallb (fun kv => match kv.2 with JList _ => true | _ => false end) d
  | _ => false
  end.

(** [dict((key, arg[key][0]) for key in arg)] *)
Fixpoint first_values (d : list (string * json)) : exn + list (string * json) :=
  match d with
  | [] => inr []
  | (key, JList (v :: _)) :: rest =>
      match first_values rest with
      | inr rest' => inr ((key, v) :: rest')
      | inl e => inl e
      end
  | _ :: _ => inl IndexError
  end.

(** [FailedTask.filtered_args], as a function of [self.args]. *)
Fixpoint filtered_args (args : list json) : exn + list json :=
  match args with
  | [] => inr []
  | arg :: rest =>
      let converted :=
        if _is_query_dict arg
        then match arg with
             | JDict d =>
                 match first_values d with
                 | inr d' => inr (JDict d')
                 | inl e => inl e
                 end
             | _ => inr arg
             end
        else inr arg in
      match converted with
      | inl e => inl e
      | inr arg' =>
          match filtered_args rest with
          | inr rest' => inr (arg' :: rest')
          | inl e => inl e
          end
      end
  end.

(** [new_task.apply_async()]: the message is handed to the broker. *)
Definition apply_async (t : subtask) : M unit :=
  fun w =>
    match broker E (broker_queue w) t with
    | Some e => (inl e, w)
    | None =>
        (inr tt, {| BAD_MESSAGE_ID_CACHE := BAD_MESSAGE_ID_CACHE w;
                    vendor_log := vendor_log w;
                    failed_tasks := failed_tasks w;
                    broker_queue := broker_queue w ++ [t] |})
    end.

(** [self.delete()] on a [FailedTask] row. *)
Definition FailedTask_delete (self : FailedTask) : M unit :=
  fun w =>
    (inr tt, {| BAD_MESSAGE_ID_CACHE := BAD_MESSAGE_ID_CACHE w;
                vendor_log := vendor_log w;
                failed_tasks :=
                  List.filter (fun r => negb (Nat.eqb (pk r) (pk self))) (failed_tasks w);
                broker_queue := broker_queue w |}).

(** [FailedTask.retry] *)
Definition FailedTask_retry (self : FailedTask) : M unit :=
  match filtered_args (args self) with
  | inl e => raise e
  | inr fargs =>
      let new_task := {| st_name := name self; st_args := fargs;
                         st_kwargs := kwargs self; st_retries := 0 |} in
      apply_async new_task ;;;
      FailedTask_delete self
  end.

(** Is the row with this primary key in the table? *)
Definition has_failed_task (key : nat) (w : world) : bool :=
  existsb (fun r => Nat.eqb (pk r) key) (failed_tasks w).

Definition exn_repr (e : exn) : string :=
  match e with
  | NewsletterException m => "NewsletterException(" ++ repr m ++ ",)"
  | URLError r => "URLError(" ++ repr r ++ ",)"
  | BasketError m => "BasketError(" ++ repr m ++ ",)"
  | KeyError k => "KeyError(" ++ repr k ++ ",)"
  | IndexError => "IndexError()"
  | IntegrityError c => "IntegrityError(" ++ repr c ++ ",)"
  end.

(** [ETTask.on_failure]: [FailedTask.objects.create(...)].  The column
    [task_id] is declared [unique=True]: for a task id the table already
    holds, [create] raises [IntegrityError] and stores nothing.  Otherwise
    the new row gets a primary key above every key in the table; the
    traceback text stored in [einfo] is represented by the exception's
    [repr]. *)
Definition on_failure (task_name : string) (e : exn) (tid : string)
    (targs : list json) (tkwargs : list (string * json)) : M unit :=
  fun w =>
    if existsb (fun r => String.eqb (task_id r) tid) (failed_tasks w)
    then (inl (IntegrityError "task_id"), w)
    else
      let row := {| pk := S (foldr Nat.max 0 (map pk (failed_tasks w)));
                    task_id := tid; name := task_name; args := targs; kwargs := tkwargs;
                    exc := Some (exn_repr e); einfo := Some (exn_repr e) |} in
      (inr tt, {| BAD_MESSAGE_ID_CACHE := BAD_MESSAGE_ID_CACHE w;
                  vendor_log := vendor_log w;
                  failed_tasks := failed_tasks w ++ [row];
                  broker_queue := broker_queue w |}).

(** Modelled from the spec: the Celery worker is not part of the sources.
    Section 4.6 has it reschedule an operation on a retryable failure up to
    [max_retries] times, and persist a Failed-operation record on a
    non-retryable failure or when the retries are used up. *)
Inductive worker_outcome : Type :=
| TaskSucceeded
| TaskRescheduled
| TaskFailed (e : exn)
| TaskUnknown.

Definition worker_run
    (registry : string -> list json -> list (string * json) ->
                option (world -> task_result unit * world))
    (tid : string) (msg : subtask) : world -> worker_outcome * world :=
  fun w =>
    match registry (st_name msg) (st_args msg) (st_kwargs msg) with
    | None => (TaskUnknown, w)
    | Some task =>
        match task w with
        | (Returned _, w') => (TaskSucceeded, w')
        | (Retry e, w') =>
            if (st_retries msg <? max_retries)%nat then
              let again := {| st_name := st_name msg; st_args := st_args msg;
                              st_kwargs := st_kwargs msg;
                              st_retries := S (st_retries msg) |} in
              (TaskRescheduled, (apply_async again w').2)
            else
              (TaskFailed e,
               (on_failure (st_name msg) e tid (st_args msg) (st_kwargs msg) w').2)
        | (Escaped e, w') =>
            (TaskFailed e,
             (on_failure (st_name msg) e tid (st_args msg) (st_kwargs msg) w').2)
        end
    end.

(** Modelled from the spec: the task registry Celery builds from the
    [@et_task] decorators, for the tasks embedded above; positional JSON
    arguments are decoded into the tasks' parameters. *)
Definition registered_task (task_name : string) (targs : list json)
    (tkwargs : list (string * json)) : option (world -> task_result unit * world) :=
  match targs with
  | [JStr email] =>
      if String.eqb task_name "news.tasks.send_recovery_message_task"
      then Some (send_recovery_message_task email) else None
  | [JStr token; JStr reason] =>
      if String.eqb task_name "news.tasks.update_custom_unsub"
      then Some (update_custom_unsub token reason) else None
  | [JStr token; JNull] =>
      if String.eqb task_name "news.tasks.confirm_user"
      then Some (confirm_user token None) else None
  | _ => None
  end.

End Tasks.

(** ** The decision table of the specification *)

(** Section 4.3, row by row, on [(confirmed, exempt, pending)]. *)
Definition decision_table (confirmed exempt pending : bool) : nat :=
  match confirmed, exempt, pending with
  | true, _, _ => UU_ALREADY_CONFIRMED
  | false, true, true => UU_EXEMPT_PENDING
  | false, true, false => UU_EXEMPT_NEW
  | false, false, true => UU_MUST_CONFIRM_PENDING
  | false, false, false => UU_MUST_CONFIRM_NEW
  end.

(** Applying a diff to a known subscription set: the slugs of [to_subscribe]
    are added and those of [to_unsubscribe] removed. *)
Definition apply_diff (cur : gset string) (to_subscribe to_unsubscribe : list string)
    : gset string :=
  (cur ∪ list_to_set to_subscribe) ∖ list_to_set to_unsubscribe.

(** ** A sample installation

    Two newsletters; the registry of [news/newsletters.py] is read off the
    table: a slug maps to its row's vendor id, an unknown slug to [None]. *)

Definition sample_newsletters : list Newsletter :=
  [ {| slug := "mozilla-and-you"; active := true; welcome := "MAY_Welcome";
       vendor_id := "MOZILLA_AND_YOU"; languages := "en,fr,pt";
       requires_double_optin := true; order := 1; confirm_message := "" |};
    {| slug := "firefox-os"; active := true; welcome := "FFOS_Welcome";
       vendor_id := "FIREFOX_OS"; languages := "en";
       requires_double_optin := false; order := 2; confirm_message := "" |} ].

Definition field_of_rows (rows : list Newsletter) (s : string) : option string :=
  vendor_id <$> List.find (fun nl => String.eqb (slug nl) s) rows.

Definition sample_env
    (users : option string -> option string -> option user_data)
    (v : list vendor_call -> vendor_call -> option exn) : Env :=
  {| newsletter_field := field_of_rows sample_newsletters;
     newsletter_slugs := map slug sample_newsletters;
     is_supported_newsletter_language := fun l => bool_decide (l ∈ ["en"; "fr"; "pt"]);
     Newsletter_objects := sample_newsletters;
     get_user_data := users;
     vendor := v;
     broker := fun _ _ => None;
     today := "2014-06-01";
     gmttime := "Sun, 01 Jun 2014 12:10:00 GMT";
     EXACTTARGET_DATA := "MASTER";
     EXACTTARGET_OPTIN_STAGE := "OPT_IN";
     EXACTTARGET_CONFIRMATION := "CONFIRMATION" |}.

(** Nobody is known to the vendor. *)
Definition no_users : option string -> option string -> option user_data :=
  fun _ _ => None.

(** The vendor accepts every call. *)
Definition vendor_ok : list vendor_call -> vendor_call -> option exn :=
  fun _ _ => None.

(** The vendor rejects every triggered send with a fixed error text and
    accepts every record update. *)
Definition vendor_rejecting_sends (message : string)
    : list vendor_call -> vendor_call -> option exn :=
  fun _ c =>
    match c with
    | trigger_send _ _ _ _ => Some (NewsletterException message)
    | add_record _ _ => None
    end.

Definition empty_world : world :=
  {| BAD_MESSAGE_ID_CACHE := ∅; vendor_log := []; failed_tasks := []; broker_queue := [] |}.

(** A user the vendor holds as confirmed, in the master table. *)
Definition sample_confirmed_user : user_data :=
  {| ud_email := Some "ada@example.com"; ud_token := "tok-ada"; ud_master := true;
     ud_pending := false; ud_confirmed := true; ud_lang := Some "fr";
     ud_status := Some "ok"; ud_format := Some "H";
     ud_newsletters := Some ["mozilla-and-you"] |}.

(** A user the vendor holds as pending, in the opt-in table. *)
Definition sample_pending_user : user_data :=
  {| ud_email := Some "bob@example.com"; ud_token := "tok-bob"; ud_master := false;
     ud_pending := true; ud_confirmed := false; ud_lang := Some "en";
     ud_status := Some "ok"; ud_format := Some "H";
     ud_newsletters := Some ["mozilla-and-you"] |}.

(** The vendor knows exactly this user, under any key. *)
Definition only_user (ud : user_data) : option string -> option string -> option user_data :=
  fun _ _ => Some ud.

(** The POST data of a request that names newsletters and nothing else. *)
Definition newsletters_only (slugs : string) : gmap string string :=
  {[ "newsletters" := slugs ]}.

(** The installation in which the vendor knows one confirmed user and
    rejects every triggered send as naming an unknown message. *)
Definition rejecting_env : Env :=
  sample_env (only_user sample_confirmed_user)
    (vendor_rejecting_sends "Error: Invalid Customer Key").

(** A world whose cache already marks one message id as bad. *)
Definition world_with_bad_id (message_id : string) : world :=
  set_bad_message_id message_id true empty_world.

(** A Failed-operation row for a recovery message that could not be sent. *)
Definition sample_failed_task : FailedTask :=
  {| pk := 1; task_id := "5f2a"; name := "news.tasks.send_recovery_message_task";
     args := [JStr "ada@example.com"]; kwargs := [];
     exc := Some "BasketError('ET says no such message ID',)"; einfo := None |}.

(** A world whose [FailedTask] table holds that row only. *)
Definition world_with_failed_task : world :=
  {| BAD_MESSAGE_ID_CACHE := ∅; vendor_log := [];
     failed_tasks := [sample_failed_task]; broker_queue := [] |}.

(** A slug the registry maps to a usable vendor field: the test [if name]
    of [parse_newsletters] passes. *)
Definition has_vendor_field (E : Env) (nl : string) : Prop :=
  Py.truthy_opt (newsletter_field E nl) = true.

#[global] Instance has_vendor_field_dec (E : Env) (nl : string) :
  Decision (has_vendor_field E nl).
Proof. unfold has_vendor_field. apply _. Defined.

(** The set a SET request removes from: the current subscriptions when they
    are known, every slug of the registry when they are not. *)
Definition set_base (E : Env) (cur : option (gset string)) : gset string :=
  match cur with
  | Some c => c
  | None => list_to_set (newsletter_slugs E)
  end.

(** ** How a run may change the world *)

(** The vendor log of [w'] extends that of [w]. *)
Definition log_extends (w w' : world) : Prop :=
  exists calls, vendor_log w' = (vendor_log w ++ calls)%list.

(** Every message id marked bad in [w] is still marked bad in [w']. *)
Definition deny_list_kept (w w' : world) : Prop :=
  forall message_id,
    BAD_MESSAGE_ID_CACHE w !! message_id = Some true ->
    BAD_MESSAGE_ID_CACHE w' !! message_id = Some true.

(** The [FailedTask] table and the broker queue are the same in both. *)
Definition tables_kept (w w' : world) : Prop :=
  failed_tasks w' = failed_tasks w /\ broker_queue w' = broker_queue w.

Definition evolves (w w' : world) : Prop :=
  log_extends w w' /\ deny_list_kept w w' /\ tables_kept w w'.

(** A computation whose every run, returning or raising, takes the world to
    one that [evolves] from it. *)
Definition well_behaved {A : Type} (m : M A) : Prop :=
  forall w, evolves w (m w).2.

(** The keys of [record] that [parse_newsletters] writes for these slugs. *)
Definition flag_keys (E : Env) (slugs : list string) : list string :=
  flat_map (fun nl =>
              let name := default "" (newsletter_field E nl) in
              [name ++ "_FLG"; name ++ "_DATE"]) slugs.

(** The last character of a string. *)
Fixpoint last_char (s : string) : option ascii :=
  match s with
  | EmptyString => None
  | String c EmptyString => Some c
  | String _ r => last_char r
  end.

(** The vendor field a loop of [parse_newsletters] formats into its keys. *)
Definition field_name (E : Env) (nl : string) : string :=
  default "" (newsletter_field E nl).

(** The record part of the two loops of [parse_newsletters], which differ in
    the flag they write and in the test on [cur_newsletters]. *)
Fixpoint flag_loop (E : Env) (flag : string) (test : string -> bool)
    (record : gmap string string) (slugs : list string) : gmap string string :=
  match slugs with
  | [] => record
  | nl :: rest =>
      if Py.truthy_opt (newsletter_field E nl) && test nl
      then flag_loop E flag test (set_flag E record (field_name E nl) flag) rest
      else flag_loop E flag test record rest
  end.

(** The language [send_welcomes] picks for a newsletter's welcome: the
    user's two-letter code when the newsletter lists it, English otherwise. *)
Definition welcome_lang_code (ud : user_data) (nl : Newsletter) : string :=
  let languages := map (fun lang => Py.lower (Py.take 2 lang)) (language_list nl) in
  let lang_code := Py.lower (Py.take 2 (default "en" (ud_lang ud))) in
  if bool_decide (lang_code ∈ languages) then lang_code else "en".

(** The message id [send_welcomes] derives from a newsletter. *)
Definition welcome_message_id (ud : user_data) (format : string) (nl : Newsletter) : string :=
  mogrify_message_id (Py.strip (welcome nl)) (welcome_lang_code ud nl) format.

(** ** [news/models.py]: subscribers, newsletters, failed tasks *)

(** A row of [models.Subscriber] without its primary key [email]; the table
    maps an email to its row. *)
Record Subscriber : Type := {
  sub_token : string;
  sub_fxa_id : option string
}.

(** [SubscriberManager.get_and_sync(email, token, fxa_id)] on the table:
    [get_or_create] with the token (and the fxa id, when truthy) as defaults,
    then, for a row that existed, the update of its token (and fxa id) and
    [save]. *)
Definition get_and_sync (table : gmap string Subscriber) (email token : string)
    (fxa_id : option string) : Subscriber * gmap string Subscriber :=
  match table !! email with
  | None =>
      let sub := {| sub_token := token;
                    sub_fxa_id := if Py.truthy_opt fxa_id then fxa_id else None |} in
      (sub, <[email := sub]> table)
  | Some old =>
      let sub := {| sub_token := token;
                    sub_fxa_id := if Py.truthy_opt fxa_id then fxa_id
                                  else sub_fxa_id old |} in
      (sub, <[email := sub]> table)
  end.

(** [s.replace(" ", "")] *)
Fixpoint remove_spaces (s : string) : string :=
  match s with
  | EmptyString => EmptyString
  | String c r => if Ascii.eqb c " "%char then remove_spaces r
                  else String c (remove_spaces r)
  end.

(** The row [Newsletter.save] writes: languages without spaces, welcome and
    confirm message stripped.  (The cache reset that follows is the
    registry's business.) *)
Definition Newsletter_save (self : Newsletter) : Newsletter :=
  {| slug := slug self; active := active self;
     welcome := Py.strip (welcome self);
     vendor_id := vendor_id self;
     languages := remove_spaces (languages self);
     requires_double_optin := requires_double_optin self;
     order := order self;
     confirm_message := Py.strip (confirm_message self) |}.

(** The JSON form of a QueryDict: every value wrapped in a one-element
    list. *)
Definition as_query_dict (d : list (string * json)) : list (string * json) :=
  map (fun kv => (kv.1, JList [kv.2])) d.

(** ** [update_phonebook] *)

Definition PHONEBOOK_GROUPS : list string :=
  [ "SYSTEMS_ADMINISTRATION"; "BOOT2GECKO"; "LOCALIZATION"; "QUALITY_ASSURANCE";
    "CREATIVE"; "METRICS"; "MARKETING"; "POLICY"; "WEB_DEVELOPMENT"; "CODING";
    "SUPPORT"; "UX"; "COMMUNICATIONS"; "PROGRAM_MANAGEMENT"; "LABS"; "WEBFWD";
    "SECURITY"; "DEVELOPER_DOCUMENTATION"; "DEVELOPER_TOOLS"; "MOBILE";
    "THUNDERBIRD"; "APPS"; "EVANGELISM"; "GRAPHICS"; "LEGAL"; "ADD-ONS";
    "AUTOMATION"; "RECRUITING"; "PERSONA"; "BUSINESS_DEVELOPMENT"; "PEOPLE";
    "ACCESSIBILITY"; "FUNDRAISING" ].

(** The record [update_phonebook] builds; [record.update(...)] lets the
    group entries of [data] win over what is already there. *)
Definition phonebook_record (data : gmap string string) (email token : string)
    : gmap string string :=
  let record : gmap string string := <["TOKEN" := token]> (<["EMAIL_ADDRESS" := email]> ∅) in
  let record := copy_field data "city" "CITY" record in
  let record := copy_field data "country" "COUNTRY" record in
  filter (fun kv => kv.1 ∈ PHONEBOOK_GROUPS) data ∪ record.

(** The function decorated into the task [update_phonebook]. *)
Definition update_phonebook_body (E : Env) (data : gmap string string)
    (email token : string) : M unit :=
  vendor_do E (add_record "PHONEBOOK" (phonebook_record data email token)).

Definition update_phonebook (E : Env) (data : gmap string string) (email token : string)
    : world -> task_result unit * world :=
  et_task (update_phonebook_body E data email token).

(** A user record the vendor lookup returned with an error status. *)
Definition sample_error_user : user_data :=
  {| ud_email := None; ud_token := ""; ud_master := false; ud_pending := false;
     ud_confirmed := false; ud_lang := None; ud_status := Some "error";
     ud_format := None; ud_newsletters := None |}.

(** A string that is empty or starts with a character [strip] keeps. *)
Definition starts_clean (s : string) : Prop :=
  match s with
  | EmptyString => True
  | String c _ => Py.is_space c = false
  end.

(** A computation whose every run adds to the vendor log a list of calls
    that satisfies [P]. *)
Definition adds {A : Type} (P : list vendor_call -> Prop) (m : M A) : Prop :=
  forall w, exists calls,
    vendor_log (m w).2 = (vendor_log w ++ calls)%list /\ P calls.

(** Calls that are all triggered sends. *)
Definition only_sends (calls : list vendor_call) : Prop :=
  Forall (fun c => is_trigger_send c = true) calls.

(** ** The language code, in the specification's words *)

(** The lower-case form of an upper-case ASCII letter, letter by letter;
    every other character stands for itself. *)
Definition lowercase_letter (c : ascii) : ascii :=
  match c with
  | "A" => "a" | "B" => "b" | "C" => "c" | "D" => "d" | "E" => "e" | "F" => "f"
  | "G" => "g" | "H" => "h" | "I" => "i" | "J" => "j" | "K" => "k" | "L" => "l"
  | "M" => "m" | "N" => "n" | "O" => "o" | "P" => "p" | "Q" => "q" | "R" => "r"
  | "S" => "s" | "T" => "t" | "U" => "u" | "V" => "v" | "W" => "w" | "X" => "x"
  | "Y" => "y" | "Z" => "z"
  | other => other
  end%char.

(** The lowercased 2-letter code of a language tag: its first two characters
    (fewer when the tag is shorter), each in lower case. *)
Definition two_letter_code (lang : string) : string :=
  match lang with
  | EmptyString => EmptyString
  | String a EmptyString => String (lowercase_letter a) EmptyString
  | String a (String b _) =>
      String (lowercase_letter a) (String (lowercase_letter b) EmptyString)
  end.

(** An installation whose only newsletter has a welcome made of blanks. *)
Definition blank_welcome_newsletters : list Newsletter :=
  [ {| slug := "beta"; active := true; welcome := "  ";
       vendor_id := "BETA"; languages := "en";
       requires_double_optin := false; order := 1; confirm_message := "" |} ].

Definition blank_welcome_env : Env :=
  {| newsletter_field := field_of_rows blank_welcome_newsletters;
     newsletter_slugs := map slug blank_welcome_newsletters;
     is_supported_newsletter_language := fun l => bool_decide (l ∈ ["en"]);
     Newsletter_objects := blank_welcome_newsletters;
     get_user_data := only_user sample_confirmed_user;
     vendor := vendor_ok;
     broker := fun _ _ => None;
     today := "2014-06-01";
     gmttime := "Sun, 01 Jun 2014 12:10:00 GMT";
     EXACTTARGET_DATA := "MASTER";
     EXACTTARGET_OPTIN_STAGE := "OPT_IN";
     EXACTTARGET_CONFIRMATION := "CONFIRMATION" |}.

(** * Properties *)

(** ** The subscription diff *)

Section DiffFacts.

Variable E : Env.

Lemma subscribe_loop_snd cur record acc l :
  (subscribe_loop E cur record acc l).2 =
  (acc ++ List.filter (fun nl => Py.truthy_opt (newsletter_field E nl) && unknown_or_absent cur nl) l)%list.
Proof.
  revert record acc.
  induction l as [|nl rest IH]; intros record acc; simpl.
  - by rewrite app_nil_r.
  - destruct (Py.truthy_opt (newsletter_field E nl) && unknown_or_absent cur nl).
    + rewrite IH. by rewrite <- app_assoc.
    + apply IH.
Qed.

Lemma unsubscribe_loop_snd cur record acc l :
  (unsubscribe_loop E cur record acc l).2 =
  (acc ++ List.filter (fun nl => Py.truthy_opt (newsletter_field E nl) && unknown_or_present cur nl) l)%list.
Proof.
  revert record acc.
  induction l as [|nl rest IH]; intros record acc; simpl.
  - by rewrite app_nil_r.
  - destruct (Py.truthy_opt (newsletter_field E nl) && unknown_or_present cur nl).
    + rewrite IH. by rewrite <- app_assoc.
    + apply IH.
Qed.

(** The two returned lists, without the record. *)
Lemma parse_newsletters_lists record type newsletters cur :
  (parse_newsletters E record type newsletters cur).2 =
  ( if String.eqb type SUBSCRIBE || String.eqb type SET
    then List.filter (fun nl => Py.truthy_opt (newsletter_field E nl) && unknown_or_absent cur nl)
           newsletters
    else [],
    if String.eqb type UNSUBSCRIBE || String.eqb type SET
    then List.filter (fun nl => Py.truthy_opt (newsletter_field E nl) && unknown_or_present cur nl)
           (unsubs_of E type newsletters cur)
    else [] ).
Proof.
  unfold parse_newsletters.
  destruct (String.eqb type SUBSCRIBE || String.eqb type SET);
    destruct (String.eqb type UNSUBSCRIBE || String.eqb type SET).
  - pose proof (subscribe_loop_snd cur record [] newsletters) as Hs.
    destruct (subscribe_loop E cur record [] newsletters) as [r1 s1]. simpl in Hs.
    pose proof (unsubscribe_loop_snd cur r1 [] (unsubs_of E type newsletters cur)) as Hu.
    destruct (unsubscribe_loop E cur r1 []) as [r2 u1]. simpl in Hu.
    simpl. by rewrite Hs, Hu.
  - pose proof (subscribe_loop_snd cur record [] newsletters) as Hs.
    destruct (subscribe_loop E cur record [] newsletters) as [r1 s1]. simpl in Hs.
    simpl. by rewrite Hs.
  - pose proof (unsubscribe_loop_snd cur record [] (unsubs_of E type newsletters cur)) as Hu.
    destruct (unsubscribe_loop E cur record []) as [r2 u1]. simpl in Hu.
    simpl. by rewrite Hu.
  - reflexivity.
Qed.

Lemma type_test_true (type a b : string) :
  String.eqb type a || String.eqb type b = true ↔ type = a ∨ type = b.
Proof.
  rewrite orb_true_iff, !String.eqb_eq. tauto.
Qed.

Lemma absent_iff cur nl :
  unknown_or_absent cur nl = true ↔ ∀ c, cur = Some c → nl ∉ c.
Proof.
  destruct cur as [c|]; simpl.
  - rewrite bool_decide_eq_true. split; [intros H c' [= <-]; done | eauto].
  - split; [intros _ c [=] | done].
Qed.

Lemma present_iff cur nl :
  unknown_or_present cur nl = true ↔ ∀ c, cur = Some c → nl ∈ c.
Proof.
  destruct cur as [c|]; simpl.
  - rewrite bool_decide_eq_true. split; [intros H c' [= <-]; done | eauto].
  - split; [intros _ c [=] | done].
Qed.

(** Which slugs end up in [to_subscribe]. *)
Lemma in_to_subscribe record type newsletters cur nl :
  nl ∈ (parse_newsletters E record type newsletters cur).2.1 ↔
  (type = SUBSCRIBE ∨ type = SET) ∧ nl ∈ newsletters ∧ has_vendor_field E nl ∧
  (∀ c, cur = Some c → nl ∉ c).
Proof.
  rewrite parse_newsletters_lists. simpl.
  destruct (String.eqb type SUBSCRIBE || String.eqb type SET) eqn:Ht.
  - apply type_test_true in Ht.
    rewrite list_elem_of_In, filter_In, <- list_elem_of_In, andb_true_iff, absent_iff.
    unfold has_vendor_field. intuition.
  - split.
    + intros H. by apply elem_of_nil in H.
    + intros [H _]. apply type_test_true in H. congruence.
Qed.

Lemma in_unsubs_of_SET newsletters cur nl :
  nl ∈ unsubs_of E SET newsletters cur ↔ nl ∈ set_base E cur ∧ nl ∉ newsletters.
Proof.
  unfold unsubs_of, set_base. simpl.
  destruct cur as [c|]; rewrite elem_of_elements; set_solver.
Qed.

(** Which slugs end up in [to_unsubscribe]. *)
Lemma in_to_unsubscribe record type newsletters cur nl :
  nl ∈ (parse_newsletters E record type newsletters cur).2.2 ↔
  (type = UNSUBSCRIBE ∧ nl ∈ newsletters ∧ has_vendor_field E nl ∧ (∀ c, cur = Some c → nl ∈ c)) ∨
  (type = SET ∧ nl ∈ set_base E cur ∧ (nl ∉ newsletters) ∧ has_vendor_field E nl).
Proof.
  rewrite parse_newsletters_lists. simpl.
  destruct (String.eqb type UNSUBSCRIBE || String.eqb type SET) eqn:Ht.
  - apply type_test_true in Ht.
    rewrite list_elem_of_In, filter_In, <- list_elem_of_In, andb_true_iff, present_iff.
    unfold has_vendor_field.
    destruct Ht as [-> | ->].
    + unfold unsubs_of. simpl. split; [intros (?&?&?); left; done|].
      intros [(_&?&?&?) | (H&_)]; [done | discriminate H].
    + rewrite in_unsubs_of_SET. split.
      * intros ((?&?)&?&?). right. done.
      * intros [(H&_) | (_&Hb&Hn&Hf)]; [discriminate H|].
        split; [done|]. split; [done|].
        intros c ->. exact Hb.
  - split.
    + intros H. by apply elem_of_nil in H.
    + intros [[H _] | [H _]]; assert (type = UNSUBSCRIBE ∨ type = SET) as H' by tauto;
        apply type_test_true in H'; congruence.
Qed.

(** The removal list of a SET has no duplicates. *)
Lemma to_unsubscribe_SET_NoDup record newsletters cur :
  NoDup (parse_newsletters E record SET newsletters cur).2.2.
Proof.
  rewrite parse_newsletters_lists. simpl.
  apply NoDup_ListNoDup, List.NoDup_filter, NoDup_ListNoDup.
  unfold unsubs_of. simpl. destruct cur; apply NoDup_elements.
Qed.

End DiffFacts.

Lemma elem_of_apply_diff (cur : gset string) (s u : list string) (nl : string) :
  nl ∈ apply_diff cur s u ↔ (nl ∈ cur ∨ nl ∈ s) ∧ nl ∉ u.
Proof. unfold apply_diff. set_solver. Qed.

(** C2 (amended): for SUBSCRIBE and SET, a target slug that is not in the
    current subscriptions (unknown subscriptions count as not present) is
    never placed in [to_unsubscribe], and it is placed in [to_subscribe]
    exactly when the registry maps it to a vendor field; a slug without one
    is skipped. *)
Theorem parse_newsletters_subscribes_absent_targets
    (E : Env) (record : gmap string string) (type : string)
    (newsletters : list string) (cur : option (gset string)) (nl : string) :
  type = SUBSCRIBE ∨ type = SET →
  nl ∈ newsletters →
  (∀ c, cur = Some c → nl ∉ c) →
  (nl ∈ (parse_newsletters E record type newsletters cur).2.1 ↔ has_vendor_field E nl) ∧
  nl ∉ (parse_newsletters E record type newsletters cur).2.2.
Proof.
  intros Ht Hin Habs. split.
  - rewrite in_to_subscribe. intuition.
  - rewrite in_to_unsubscribe. intros [(Hu & _) | (_ & _ & Hn & _)].
    + subst type. destruct Ht as [Ht | Ht]; discriminate Ht.
    + contradiction.
Qed.

Lemma parse_newsletters_subscribes_absent_targets_witness :
  (SUBSCRIBE = SUBSCRIBE ∨ SUBSCRIBE = SET) ∧
  "firefox-os" ∈ ["no-such-newsletter"; "firefox-os"] ∧
  (∀ c : gset string, None = Some c → "firefox-os" ∉ c) ∧
  (("firefox-os" ∈ (parse_newsletters (sample_env no_users vendor_ok) ∅ SUBSCRIBE
                      ["no-such-newsletter"; "firefox-os"] None).2.1 ↔
    has_vendor_field (sample_env no_users vendor_ok) "firefox-os") ∧
   "firefox-os" ∉ (parse_newsletters (sample_env no_users vendor_ok) ∅ SUBSCRIBE
                     ["no-such-newsletter"; "firefox-os"] None).2.2).
Proof.
  assert (H1 : SUBSCRIBE = SUBSCRIBE ∨ SUBSCRIBE = SET) by (left; reflexivity).
  assert (H2 : "firefox-os" ∈ ["no-such-newsletter"; "firefox-os"])
    by (apply list_elem_of_In; simpl; tauto).
  assert (H3 : ∀ c : gset string, None = Some c → "firefox-os" ∉ c)
    by (intros c Hc; discriminate Hc).
  split; [exact H1|]. split; [exact H2|]. split; [exact H3|].
  exact (parse_newsletters_subscribes_absent_targets
           (sample_env no_users vendor_ok) ∅ SUBSCRIBE
           ["no-such-newsletter"; "firefox-os"] None "firefox-os" H1 H2 H3).
Defined.

(** C2, as stated, fails: a target slug the registry does not know is not in
    the (unknown) current subscriptions, yet SUBSCRIBE leaves it out of
    [to_subscribe]. *)
Lemma parse_newsletters_skips_unknown_slug :
  "no-such-newsletter" ∈ ["no-such-newsletter"; "firefox-os"] ∧
  "no-such-newsletter" ∉
    (parse_newsletters (sample_env no_users vendor_ok) ∅ SUBSCRIBE
       ["no-such-newsletter"; "firefox-os"] None).2.1.
Proof.
  split.
  - apply list_elem_of_In. simpl. tauto.
  - rewrite in_to_subscribe. intros (_ & _ & Hf & _). vm_compute in Hf. discriminate Hf.
Qed.

(** C3 (amended): for SET, [to_unsubscribe] holds, without repetition,
    exactly the slugs of the current set minus the targets that the registry
    maps to a vendor field when the current set is known, and exactly the
    slugs of the registry minus the targets that it maps to a vendor field
    when the current state is unknown. *)
Theorem parse_newsletters_SET_removals
    (E : Env) (record : gmap string string) (newsletters : list string) :
  (∀ cur : gset string,
     NoDup (parse_newsletters E record SET newsletters (Some cur)).2.2 ∧
     list_to_set (parse_newsletters E record SET newsletters (Some cur)).2.2 =
       filter (has_vendor_field E) (cur ∖ list_to_set newsletters)) ∧
  NoDup (parse_newsletters E record SET newsletters None).2.2 ∧
  list_to_set (parse_newsletters E record SET newsletters None).2.2 =
    filter (has_vendor_field E)
      ((list_to_set (newsletter_slugs E) : gset string) ∖ list_to_set newsletters).
Proof.
  split; [intros cur; split | split]; try apply to_unsubscribe_SET_NoDup.
  - apply set_eq. intros nl.
    rewrite elem_of_list_to_set, in_to_unsubscribe, elem_of_filter, elem_of_difference,
      elem_of_list_to_set.
    simpl. split.
    + intros [(H & _) | (_ & ? & ? & ?)]; [discriminate H | done].
    + intros (? & ? & ?). right. done.
  - apply set_eq. intros nl.
    rewrite elem_of_list_to_set, in_to_unsubscribe, elem_of_filter, elem_of_difference.
    simpl. rewrite !elem_of_list_to_set. split.
    + intros [(H & _) | (_ & ? & ? & ?)]; [discriminate H | done].
    + intros (? & ? & ?). right. done.
Qed.

(** C3, as stated, fails: with the known current set
    [{"retired-newsletter"}] and no targets, the current set minus the
    targets is that singleton, but [to_unsubscribe] is empty, because the
    registry has no vendor field for the slug. *)
Lemma parse_newsletters_SET_keeps_unmapped_slug :
  list_to_set
    (parse_newsletters (sample_env no_users vendor_ok) ∅ SET []
       (Some {["retired-newsletter"]})).2.2
  ≠ ({["retired-newsletter"]} ∖ list_to_set [] : gset string).
Proof.
  intros Heq.
  assert (Hin : "retired-newsletter" ∈
                ({["retired-newsletter"]} ∖ list_to_set [] : gset string)) by set_solver.
  rewrite <- Heq in Hin.
  apply elem_of_list_to_set in Hin.
  apply in_to_unsubscribe in Hin.
  destruct Hin as [(H & _) | (_ & _ & _ & Hf)]; [discriminate H|].
  vm_compute in Hf. discriminate Hf.
Qed.

(** C9: the diff computation is idempotent on a known current set: after the
    first diff has been applied to the current set, a second run with the
    same action and targets returns two empty lists. *)
Theorem parse_newsletters_idempotent
    (E : Env) (record record' : gmap string string) (type : string)
    (newsletters : list string) (cur : gset string) :
  let diff := (parse_newsletters E record type newsletters (Some cur)).2 in
  (parse_newsletters E record' type newsletters
     (Some (apply_diff cur diff.1 diff.2))).2 = ([], []).
Proof.
  intros diff.
  set (cur' := apply_diff cur diff.1 diff.2).
  assert (Hs : ∀ nl, nl ∉ (parse_newsletters E record' type newsletters (Some cur')).2.1).
  { intros nl. rewrite in_to_subscribe. intros (Ht & Hin & Hf & Habs).
    apply (Habs cur' eq_refl). unfold cur'. apply elem_of_apply_diff. split.
    - destruct (decide (nl ∈ cur)) as [|Hc]; [by left|]. right.
      unfold diff. apply in_to_subscribe.
      split; [done|]. split; [done|]. split; [done|]. by intros c [= <-].
    - unfold diff. rewrite in_to_unsubscribe. intros [(Hu & _) | (_ & _ & Hn & _)].
      + subst type. destruct Ht as [Ht | Ht]; discriminate Ht.
      + contradiction. }
  assert (Hu : ∀ nl, nl ∉ (parse_newsletters E record' type newsletters (Some cur')).2.2).
  { intros nl. rewrite in_to_unsubscribe.
    intros [(Ht & Hin & Hf & Hpres) | (Ht & Hb & Hn & Hf)].
    - specialize (Hpres cur' eq_refl). unfold cur' in Hpres.
      apply elem_of_apply_diff in Hpres. destruct Hpres as [[Hc | Hs1] Hnu].
      + apply Hnu. unfold diff. apply in_to_unsubscribe. left.
        split; [done|]. split; [done|]. split; [done|]. by intros c [= <-].
      + unfold diff in Hs1. apply in_to_subscribe in Hs1. destruct Hs1 as (Ht' & _).
        subst type. destruct Ht' as [Ht' | Ht']; discriminate Ht'.
    - simpl in Hb. unfold cur' in Hb.
      apply elem_of_apply_diff in Hb. destruct Hb as [[Hc | Hs1] Hnu].
      + apply Hnu. unfold diff. apply in_to_unsubscribe. right. done.
      + unfold diff in Hs1. apply in_to_subscribe in Hs1. destruct Hs1 as (_ & Hin & _).
        contradiction. }
  destruct (parse_newsletters E record' type newsletters (Some cur')).2 as [s u].
  simpl in Hs, Hu.
  by rewrite (elem_of_nil_inv s Hs), (elem_of_nil_inv u Hu).
Qed.

(** C10: whatever the action, the targets and the current state (a set or
    unknown), no slug is both in [to_subscribe] and in [to_unsubscribe]. *)
Theorem parse_newsletters_disjoint
    (E : Env) (record : gmap string string) (type : string)
    (newsletters : list string) (cur : option (gset string)) :
  let diff := (parse_newsletters E record type newsletters cur).2 in
  Forall (fun nl => nl ∉ diff.2) diff.1.
Proof.
  intros diff. apply Forall_forall. intros nl Hs Hu.
  unfold diff in Hs, Hu.
  apply in_to_subscribe in Hs. destruct Hs as (Ht & Hin & _).
  apply in_to_unsubscribe in Hu. destruct Hu as [(Hu & _) | (_ & _ & Hn & _)].
  - subst type. destruct Ht as [Ht | Ht]; discriminate Ht.
  - contradiction.
Qed.

(** ** The message-id resolver *)

Lemma string_app_assoc (a b c : string) : (a ++ b) ++ c = a ++ b ++ c.
Proof.
  induction a as [|x a IH]; [reflexivity|].
  change (String x ((a ++ b) ++ c) = String x (a ++ b ++ c)). by rewrite IH.
Qed.

Lemma string_app_empty_r (a : string) : a ++ "" = a.
Proof.
  induction a as [|x a IH]; [reflexivity|].
  change (String x (a ++ "") = String x a). by rewrite IH.
Qed.

Lemma lower_ascii_letter (c : ascii) : Py.lower_ascii c = lowercase_letter c.
Proof. destruct c as [[] [] [] [] [] [] [] []]; reflexivity. Qed.

Lemma lowercase_letter_not_upper (c : ascii) :
  (nat_of_ascii (lowercase_letter c) < 65 ∨ 90 < nat_of_ascii (lowercase_letter c))%nat.
Proof. destruct c as [[] [] [] [] [] [] [] []]; vm_compute; lia. Qed.

Lemma two_letter_code_not_upper (lang : string) (c : ascii) :
  In c (list_ascii_of_string (two_letter_code lang)) →
  (nat_of_ascii c < 65 ∨ 90 < nat_of_ascii c)%nat.
Proof.
  destruct lang as [|a [|b rest]]; simpl; intros Hin;
    repeat (destruct Hin as [<- | Hin]; [apply lowercase_letter_not_upper|]);
    contradiction.
Qed.

(** The slice [lang.lower()[:2]] of the source is the lowercased 2-letter
    code of the specification. *)
Lemma take_2_lower (lang : string) : Py.take 2 (Py.lower lang) = two_letter_code lang.
Proof.
  destruct lang as [|a [|b rest]]; simpl; by rewrite ?lower_ascii_letter.
Qed.

(** C8: [mogrify_message_id] returns the base id, prefixed with the
    lowercased 2-letter code of the language and an underscore when the
    language is non-empty, and followed by [_T] when the format is the text
    format ['T'].  The code is at most two characters long, holds no
    upper-case ASCII letter (no character from 65 to 90), and is what the
    source computes by [lang.lower()[:2]].  In
    particular (WELCOME, fr, HTML) gives fr_WELCOME, (WELCOME, pt, Text)
    gives pt_WELCOME_T and (WELCOME, empty, HTML) gives WELCOME; an
    upper-case or longer language tag resolves like its two-letter code. *)
Theorem mogrify_message_id_spec (message_id lang format : string) :
  mogrify_message_id message_id lang format =
    (if String.eqb lang "" then "" else two_letter_code lang ++ "_") ++
    message_id ++
    (if String.eqb format "T" then "_T" else "")
  ∧ mogrify_message_id message_id lang format =
    (if String.eqb lang "" then "" else Py.take 2 (Py.lower lang) ++ "_") ++
    message_id ++
    (if String.eqb format "T" then "_T" else "")
  ∧ (String.length (two_letter_code lang) ≤ 2)%nat
  ∧ (∀ c, In c (list_ascii_of_string (two_letter_code lang)) →
          (nat_of_ascii c < 65 ∨ 90 < nat_of_ascii c)%nat)
  ∧ mogrify_message_id "WELCOME" "fr" "H" = "fr_WELCOME"
  ∧ mogrify_message_id "WELCOME" "pt" "T" = "pt_WELCOME_T"
  ∧ mogrify_message_id "WELCOME" "" "H" = "WELCOME"
  ∧ mogrify_message_id "WELCOME" "FR" "H" = "fr_WELCOME"
  ∧ mogrify_message_id "WELCOME" "pt-BR" "T" = "pt_WELCOME_T"
  ∧ mogrify_message_id "WELCOME" "Zh-TW" "H" = "zh_WELCOME".
Proof.
  assert (Hgen : mogrify_message_id message_id lang format =
    (if String.eqb lang "" then "" else Py.take 2 (Py.lower lang) ++ "_") ++
    message_id ++
    (if String.eqb format "T" then "_T" else "")).
  { unfold mogrify_message_id, Py.truthy.
    destruct (String.eqb lang ""); destruct (String.eqb format "T"); simpl.
    - reflexivity.
    - by rewrite string_app_empty_r.
    - by rewrite !string_app_assoc.
    - by rewrite !string_app_assoc, string_app_empty_r. }
  split; [rewrite Hgen; by rewrite take_2_lower|].
  split; [exact Hgen|].
  split; [destruct lang as [|a [|b rest]]; simpl; lia|].
  split; [apply two_letter_code_not_upper|].
  repeat split; reflexivity.
Qed.

(** ** Facts about the monad *)

Lemma bind_inr {A B : Type} (m : M A) (k : A -> M B) (w w' : world) (v : B) :
  bind m k w = (inr v, w') → ∃ a w1, m w = (inr a, w1) ∧ k a w1 = (inr v, w').
Proof.
  unfold bind. destruct (m w) as [[e | a] w1]; intros H.
  - discriminate H.
  - by exists a, w1.
Qed.

Lemma only_returns_ret {A : Type} (x : A) : only_returns (ret x) x.
Proof. intros w v w' H. unfold ret in H. congruence. Qed.

Lemma only_returns_bind {A B : Type} (m : M A) (k : A -> M B) (x : B) :
  (∀ a, only_returns (k a) x) → only_returns (bind m k) x.
Proof.
  intros Hk w v w' H. apply bind_inr in H as (a & w1 & _ & H). by eapply Hk.
Qed.

Lemma et_task_Returned {A : Type} (func : M A) (w w' : world) (v : A) :
  et_task func w = (Returned v, w') → func w = (inr v, w').
Proof.
  unfold et_task. destruct (func w) as [[e | a] w1].
  - destruct (is_retryable e); discriminate.
  - congruence.
Qed.

(** ** Sending a message *)

(** C5: for a message id that the deny-list cache already marks as bad,
    [send_message] returns normally and leaves the world as it was: no call
    is issued to the vendor. *)
Theorem send_message_deny_listed
    (E : Env) (message_id email token format : string) (w : world) :
  BAD_MESSAGE_ID_CACHE w !! message_id = Some true →
  send_message E message_id email token format w = (inr tt, w).
Proof.
  intros H. unfold send_message, bind, cache_get. by rewrite H.
Qed.

Lemma send_message_deny_listed_witness :
  BAD_MESSAGE_ID_CACHE (world_with_bad_id "en_no_such_message") !! "en_no_such_message"
    = Some true ∧
  send_message (sample_env no_users vendor_ok)
    "en_no_such_message" "ada@example.com" "tok-ada" "H"
    (world_with_bad_id "en_no_such_message")
  = (inr tt, world_with_bad_id "en_no_such_message").
Proof.
  assert (H : BAD_MESSAGE_ID_CACHE (world_with_bad_id "en_no_such_message")
                !! "en_no_such_message" = Some true) by (vm_compute; reflexivity).
  split; [exact H|].
  exact (send_message_deny_listed (sample_env no_users vendor_ok)
           "en_no_such_message" "ada@example.com" "tok-ada" "H"
           (world_with_bad_id "en_no_such_message") H).
Defined.

Lemma send_message_on_NewsletterException
    (E : Env) (message_id email token format : string) (w : world) (message : string) :
  default false (BAD_MESSAGE_ID_CACHE w !! message_id) = false →
  vendor E (vendor_log w) (trigger_send message_id email token format)
    = Some (NewsletterException message) →
  send_message E message_id email token format w =
    if Py.contains "Invalid Customer Key" message then
      (inl (BasketError ("ET says no such message ID: " ++ repr message_id)),
       set_bad_message_id message_id true
         (log_call (trigger_send message_id email token format) w))
    else if Py.contains "There are no valid subscribers." message then
      (inl (BasketError "ET says: there are no valid subscribers."),
       log_call (trigger_send message_id email token format) w)
    else
      (inl (NewsletterException message),
       log_call (trigger_send message_id email token format) w).
Proof.
  intros Hc Hv. unfold send_message, bind, cache_get, try, vendor_do.
  rewrite Hc, Hv.
  destruct (Py.contains "Invalid Customer Key" message); [reflexivity|].
  destruct (Py.contains "There are no valid subscribers." message); reflexivity.
Qed.

(** C6: when the id is not deny-listed and the vendor's triggered send
    fails.  With [NewsletterException] whose text contains "Invalid Customer
    Key", [send_message] raises [BasketError], the cache then reads the id
    as bad (and every other id as before), and the [et_task] wrapper lets
    the error escape without asking for a retry.  With a text containing
    "There are no valid subscribers." it raises [BasketError], which escapes
    the wrapper likewise, and the cache is as before.  With any other text
    the same [NewsletterException] is raised again, and with [URLError] the
    error passes through; the wrapper asks for a retry of both, and the
    cache is as before.  In every case exactly the one triggered send was
    issued. *)
Theorem send_message_vendor_errors
    (E : Env) (message_id email token format : string) (w : world) :
  default false (BAD_MESSAGE_ID_CACHE w !! message_id) = false →
  let call := trigger_send message_id email token format in
  let run := send_message E message_id email token format in
  let w' := (run w).2 in
  (∀ message,
     vendor E (vendor_log w) call = Some (NewsletterException message) →
     vendor_log w' = (vendor_log w ++ [call])%list ∧
     if Py.contains "Invalid Customer Key" message then
       (∃ msg, (run w).1 = inl (BasketError msg) ∧
               et_task run w = (Escaped (BasketError msg), w')) ∧
       BAD_MESSAGE_ID_CACHE w' !! message_id = Some true ∧
       (∀ other, other ≠ message_id →
                 BAD_MESSAGE_ID_CACHE w' !! other = BAD_MESSAGE_ID_CACHE w !! other) ∧
       w' = set_bad_message_id message_id true (log_call call w)
     else if Py.contains "There are no valid subscribers." message then
       (∃ msg, (run w).1 = inl (BasketError msg) ∧
               et_task run w = (Escaped (BasketError msg), w')) ∧
       BAD_MESSAGE_ID_CACHE w' = BAD_MESSAGE_ID_CACHE w ∧
       w' = log_call call w
     else
       (run w).1 = inl (NewsletterException message) ∧
       et_task run w = (Retry (NewsletterException message), w') ∧
       BAD_MESSAGE_ID_CACHE w' = BAD_MESSAGE_ID_CACHE w ∧
       w' = log_call call w) ∧
  (∀ reason,
     vendor E (vendor_log w) call = Some (URLError reason) →
     vendor_log w' = (vendor_log w ++ [call])%list ∧
     (run w).1 = inl (URLError reason) ∧
     et_task run w = (Retry (URLError reason), w') ∧
     BAD_MESSAGE_ID_CACHE w' = BAD_MESSAGE_ID_CACHE w ∧
     w' = log_call call w).
Proof.
  intros Hc call run w'. split.
  - intros message Hv.
    pose proof (send_message_on_NewsletterException E message_id email token format w
                  message Hc Hv) as Hrun.
    fold run call in Hrun. unfold w', et_task. rewrite Hrun.
    destruct (Py.contains "Invalid Customer Key" message); simpl.
    + split; [reflexivity|]. split; [eauto|]. split; [apply lookup_insert_eq|].
      split; [|reflexivity]. intros other Hne. by rewrite lookup_insert_ne.
    + destruct (Py.contains "There are no valid subscribers." message); simpl.
      * split; [reflexivity|]. split; [eauto|]. done.
      * done.
  - intros reason Hv. unfold w', et_task, run, send_message, bind, cache_get, try, vendor_do.
    fold call. rewrite Hc, Hv. simpl. done.
Qed.

Lemma send_message_vendor_errors_witness :
  default false (BAD_MESSAGE_ID_CACHE empty_world !! "fr_no_such_message") = false ∧
  vendor rejecting_env (vendor_log empty_world)
    (trigger_send "fr_no_such_message" "ada@example.com" "tok-ada" "H")
    = Some (NewsletterException "Error: Invalid Customer Key") ∧
  (∃ msg,
     (send_message rejecting_env "fr_no_such_message" "ada@example.com" "tok-ada" "H"
        empty_world).1 = inl (BasketError msg) ∧
     et_task
       (send_message rejecting_env "fr_no_such_message" "ada@example.com" "tok-ada" "H")
       empty_world
     = (Escaped (BasketError msg),
        (send_message rejecting_env "fr_no_such_message" "ada@example.com" "tok-ada" "H"
           empty_world).2)) ∧
  BAD_MESSAGE_ID_CACHE
    (send_message rejecting_env "fr_no_such_message" "ada@example.com" "tok-ada" "H"
       empty_world).2 !! "fr_no_such_message" = Some true ∧
  BAD_MESSAGE_ID_CACHE
    (send_message rejecting_env "fr_no_such_message" "ada@example.com" "tok-ada" "H"
       empty_world).2 !! "fr_welcome" = None ∧
  et_task
    (send_message (sample_env no_users (vendor_rejecting_sends "Error: server busy"))
       "fr_welcome" "ada@example.com" "tok-ada" "H")
    empty_world
  = (Retry (NewsletterException "Error: server busy"),
     log_call (trigger_send "fr_welcome" "ada@example.com" "tok-ada" "H") empty_world).
Proof.
  assert (H1 : default false (BAD_MESSAGE_ID_CACHE empty_world !! "fr_no_such_message")
               = false) by reflexivity.
  assert (H2 : vendor rejecting_env (vendor_log empty_world)
                 (trigger_send "fr_no_such_message" "ada@example.com" "tok-ada" "H")
               = Some (NewsletterException "Error: Invalid Customer Key")) by reflexivity.
  split; [exact H1|]. split; [exact H2|].
  pose proof (proj1 (send_message_vendor_errors rejecting_env
                       "fr_no_such_message" "ada@example.com" "tok-ada" "H" empty_world H1)
                "Error: Invalid Customer Key" H2) as H.
  simpl in H. destruct H as (_ & Hraise & Hbad & Hother & _).
  split; [exact Hraise|]. split; [exact Hbad|].
  split; [rewrite (Hother "fr_welcome"); [reflexivity | discriminate]|].
  assert (H3 : default false (BAD_MESSAGE_ID_CACHE empty_world !! "fr_welcome") = false)
    by reflexivity.
  assert (H4 : vendor (sample_env no_users (vendor_rejecting_sends "Error: server busy"))
                 (vendor_log empty_world)
                 (trigger_send "fr_welcome" "ada@example.com" "tok-ada" "H")
               = Some (NewsletterException "Error: server busy")) by reflexivity.
  pose proof (proj1 (send_message_vendor_errors
                       (sample_env no_users (vendor_rejecting_sends "Error: server busy"))
                       "fr_welcome" "ada@example.com" "tok-ada" "H" empty_world H3)
                "Error: server busy" H4) as H'.
  simpl in H'. destruct H' as (_ & _ & Hretry & _).
  exact Hretry.
Defined.

(** ** The confirmation decision *)

(** [exempt_from_confirmation] in words: the opt-in is bypassed, or some
    newsletter of the table whose slug is in [to_subscribe] does not require
    the double opt-in. *)
Lemma exempt_from_confirmation_iff (E : Env) (optin : bool) (to_subscribe : list string) :
  exempt_from_confirmation E optin to_subscribe = true ↔
  optin = true ∨
  ∃ nl, nl ∈ Newsletter_objects E ∧ slug nl ∈ to_subscribe ∧ requires_double_optin nl = false.
Proof.
  unfold exempt_from_confirmation.
  rewrite orb_true_iff, existsb_exists.
  split; (intros [Ho | (nl & Hin & Hnl)]; [by left | right]); exists nl.
  - apply andb_true_iff in Hnl as [Hs Hr].
    apply bool_decide_eq_true in Hs. apply negb_true_iff in Hr.
    by rewrite list_elem_of_In.
  - destruct Hnl as [Hs Hr]. split; [by apply list_elem_of_In|].
    apply andb_true_iff. split; [by apply bool_decide_eq_true | by apply negb_true_iff].
Qed.

(** What [fetch_user_data] hands on, when it returns. *)
Lemma fetch_user_data_inr (E : Env) (email token lang : string) (w w' : world)
    (ud : user_data) :
  fetch_user_data E email token lang w = (inr ud, w') →
  ud_confirmed ud = from_option ud_confirmed false (get_user_data E None (Some token)) ∧
  ud_pending ud = from_option ud_pending false (get_user_data E None (Some token)) ∧
  ud_newsletters ud = get_user_data E None (Some token) ≫= ud_newsletters.
Proof.
  unfold fetch_user_data.
  destruct (get_user_data E None (Some token)) as [ud0|]; simpl.
  - destruct (negb (String.eqb (default "error" (ud_status ud0)) "ok")).
    + discriminate.
    + unfold ret. intros [= <- _]. done.
  - unfold ret. intros [= <- _]. done.
Qed.

(** C1: whenever [update_user] returns, its return code is the one the
    decision table gives for (confirmed, exempt, pending), where confirmed
    and pending are those of the vendor's record for the token (both false
    for an unknown user) and exempt holds exactly when the opt-in is
    bypassed or some slug of [to_subscribe] belongs to a newsletter that does
    not require the double opt-in. *)
Theorem update_user_decision_table
    (E : Env) (data : gmap string string) (email token : string) (created : bool)
    (type : string) (optin : bool) (w w' : world) (rc : nat) (exempt : bool) :
  let known := get_user_data E None (Some token) in
  let confirmed := from_option ud_confirmed false known in
  let pending := from_option ud_pending false known in
  let cur_newsletters : option (gset string) :=
    list_to_set <$> (known ≫= ud_newsletters) in
  let to_subscribe :=
    (parse_newsletters E ∅ type (requested_newsletters data) cur_newsletters).2.1 in
  (exempt = true ↔
   optin = true ∨
   ∃ nl, nl ∈ Newsletter_objects E ∧ slug nl ∈ to_subscribe ∧
         requires_double_optin nl = false) →
  update_user E data email token created type optin w = (Returned rc, w') →
  rc = decision_table confirmed exempt pending.
Proof.
  intros known confirmed pending cur_newsletters to_subscribe Hex H.
  apply et_task_Returned in H. unfold update_user_body in H.
  apply bind_inr in H as (ud & w1 & Hf & H).
  apply fetch_user_data_inr in Hf as (Hc & Hp & Hn).
  apply bind_inr in H as ([ud2 lang2] & w2 & Hl & H).
  assert (Hud2 : ud_confirmed ud2 = confirmed ∧ ud_pending ud2 = pending ∧
                 ud_newsletters ud2 = known ≫= ud_newsletters).
  { destruct (Py.truthy _) in Hl.
    - unfold ret in Hl. injection Hl as <- _ _. simpl. done.
    - apply bind_inr in Hl as (l & w3 & _ & Hl).
      unfold ret in Hl. injection Hl as <- _ _. done. }
  destruct Hud2 as (Hc2 & Hp2 & Hn2). clear Hl Hc Hp Hn.
  destruct (match data !! "format" with Some _ => _ | None => _ end) as [fmt record].
  rewrite Hn2 in H. fold cur_newsletters in H.
  pose proof (parse_newsletters_lists E record type (requested_newsletters data)
                cur_newsletters) as Hl1.
  pose proof (parse_newsletters_lists E ∅ type (requested_newsletters data)
                cur_newsletters) as Hl2.
  destruct (parse_newsletters E record type (requested_newsletters data) cur_newsletters)
    as [record' [s u]].
  assert (Hs : s = to_subscribe).
  { unfold to_subscribe. rewrite Hl2. simpl in Hl1. by injection Hl1 as -> _. }
  subst s. clear Hl1 Hl2.
  assert (Hexempt : exempt_from_confirmation E optin to_subscribe = exempt).
  { apply eq_true_iff_eq. rewrite exempt_from_confirmation_iff. by rewrite Hex. }
  rewrite Hexempt, Hc2, Hp2 in H.
  destruct confirmed.
  - eapply only_returns_bind in H; [exact H|]. intros _.
    apply only_returns_bind. intros _. apply only_returns_ret.
  - destruct exempt.
    + destruct pending.
      * eapply only_returns_bind in H; [exact H|]. intros _.
        apply only_returns_bind. intros _. apply only_returns_ret.
      * eapply only_returns_bind in H; [exact H|]. intros _.
        apply only_returns_bind. intros _. apply only_returns_ret.
    + destruct pending.
      * eapply only_returns_bind in H; [exact H|]. intros _.
        apply only_returns_bind. intros _. apply only_returns_ret.
      * eapply only_returns_bind in H; [exact H|]. intros _.
        apply only_returns_bind. intros _. apply only_returns_ret.
Qed.

Lemma update_user_decision_table_witness :
  (true = true ↔
   false = true ∨
   ∃ nl, nl ∈ Newsletter_objects (sample_env no_users vendor_ok) ∧
         slug nl ∈ (parse_newsletters (sample_env no_users vendor_ok) ∅ SUBSCRIBE
                      (requested_newsletters (newsletters_only "firefox-os"))
                      (list_to_set <$>
                         (get_user_data (sample_env no_users vendor_ok) None (Some "tok-ada")
                            ≫= ud_newsletters))).2.1 ∧
         requires_double_optin nl = false) ∧
  update_user (sample_env no_users vendor_ok) (newsletters_only "firefox-os")
    "ada@example.com" "tok-ada" true SUBSCRIBE false empty_world
  = (Returned UU_EXEMPT_NEW,
     (update_user (sample_env no_users vendor_ok) (newsletters_only "firefox-os")
        "ada@example.com" "tok-ada" true SUBSCRIBE false empty_world).2) ∧
  UU_EXEMPT_NEW = decision_table false true false.
Proof.
  assert (H1 : true = true ↔
     false = true ∨
     ∃ nl, nl ∈ Newsletter_objects (sample_env no_users vendor_ok) ∧
           slug nl ∈ (parse_newsletters (sample_env no_users vendor_ok) ∅ SUBSCRIBE
                        (requested_newsletters (newsletters_only "firefox-os"))
                        (list_to_set <$>
                           (get_user_data (sample_env no_users vendor_ok) None (Some "tok-ada")
                              ≫= ud_newsletters))).2.1 ∧
           requires_double_optin nl = false).
  { split; [intros _ | reflexivity]. right.
    exists {| slug := "firefox-os"; active := true; welcome := "FFOS_Welcome";
              vendor_id := "FIREFOX_OS"; languages := "en";
              requires_double_optin := false; order := 2; confirm_message := "" |}.
    split; [|split].
    - apply list_elem_of_In. simpl. tauto.
    - apply list_elem_of_In. vm_compute. tauto.
    - reflexivity. }
  assert (H2 : update_user (sample_env no_users vendor_ok) (newsletters_only "firefox-os")
                 "ada@example.com" "tok-ada" true SUBSCRIBE false empty_world
               = (Returned UU_EXEMPT_NEW,
                  (update_user (sample_env no_users vendor_ok) (newsletters_only "firefox-os")
                     "ada@example.com" "tok-ada" true SUBSCRIBE false empty_world).2))
    by (vm_compute; reflexivity).
  split; [exact H1|]. split; [exact H2|].
  exact (update_user_decision_table (sample_env no_users vendor_ok)
           (newsletters_only "firefox-os") "ada@example.com" "tok-ada" true SUBSCRIBE false
           empty_world _ UU_EXEMPT_NEW true H1 H2).
Defined.

(** Every row of the table is reached by a run that returns. *)
Example update_user_already_confirmed :
  (update_user (sample_env (only_user sample_confirmed_user) vendor_ok)
     (newsletters_only "firefox-os") "ada@example.com" "tok-ada" false SET false
     empty_world).1 = Returned UU_ALREADY_CONFIRMED.
Proof. vm_compute. reflexivity. Qed.

Example update_user_exempt_pending :
  (update_user (sample_env (only_user sample_pending_user) vendor_ok)
     (newsletters_only "firefox-os") "bob@example.com" "tok-bob" false SUBSCRIBE false
     empty_world).1 = Returned UU_EXEMPT_PENDING.
Proof. vm_compute. reflexivity. Qed.

Example update_user_exempt_new :
  (update_user (sample_env no_users vendor_ok)
     (newsletters_only "mozilla-and-you") "ada@example.com" "tok-ada" true SUBSCRIBE true
     empty_world).1 = Returned UU_EXEMPT_NEW.
Proof. vm_compute. reflexivity. Qed.

Example update_user_must_confirm_pending :
  (update_user (sample_env (only_user sample_pending_user) vendor_ok)
     (newsletters_only "mozilla-and-you") "bob@example.com" "tok-bob" false SUBSCRIBE false
     empty_world).1 = Returned UU_MUST_CONFIRM_PENDING.
Proof. vm_compute. reflexivity. Qed.

Example update_user_must_confirm_new :
  (update_user (sample_env no_users vendor_ok)
     (newsletters_only "mozilla-and-you") "ada@example.com" "tok-ada" true SUBSCRIBE false
     empty_world).1 = Returned UU_MUST_CONFIRM_NEW.
Proof. vm_compute. reflexivity. Qed.

(** A vendor failure while the record is written is handed to the retry
    path. *)
Example update_user_vendor_down :
  (update_user (sample_env no_users (fun _ _ => Some (URLError "timed out")))
     (newsletters_only "mozilla-and-you") "ada@example.com" "tok-ada" true SUBSCRIBE false
     empty_world).1 = Retry (URLError "timed out").
Proof. vm_compute. reflexivity. Qed.

(** ** Messages sent for an empty [to_subscribe] *)

Lemma sends_nothing_unchanged {A : Type} (m : M A) :
  (∀ w, (m w).2 = w) → sends_nothing m.
Proof.
  intros H w. exists []. rewrite H, app_nil_r. by split.
Qed.

Lemma sends_nothing_ret {A : Type} (x : A) : sends_nothing (ret x).
Proof. by apply sends_nothing_unchanged. Qed.

Lemma sends_nothing_subscript {A : Type} (v : option A) (key : string) :
  sends_nothing (subscript v key).
Proof. apply sends_nothing_unchanged. by destruct v. Qed.

Lemma sends_nothing_bind {A B : Type} (m : M A) (k : A -> M B) (P : A -> Prop) :
  sends_nothing m →
  (∀ w a w', m w = (inr a, w') → P a) →
  (∀ a, P a → sends_nothing (k a)) →
  sends_nothing (bind m k).
Proof.
  intros Hm HP Hk w. unfold bind.
  destruct (Hm w) as (c1 & Hc1 & Hf1).
  destruct (m w) as [[e | a] w1] eqn:Hmw; simpl in Hc1.
  - by exists c1.
  - destruct (Hk a (HP _ _ _ Hmw) w1) as (c2 & Hc2 & Hf2).
    exists (c1 ++ c2)%list. rewrite Hc2, Hc1, app_assoc. split; [done|].
    by apply Forall_app.
Qed.

Lemma sends_nothing_apply_updates (E : Env) (target_et : string)
    (record : gmap string string) :
  sends_nothing (apply_updates E target_et record).
Proof.
  intros w. exists [add_record target_et record].
  unfold apply_updates, vendor_do.
  destruct (vendor E (vendor_log w) (add_record target_et record)); simpl;
    (split; [done | by repeat constructor]).
Qed.

Lemma sends_nothing_fetch_user_data (E : Env) (email token lang : string) :
  sends_nothing (fetch_user_data E email token lang).
Proof.
  apply sends_nothing_unchanged. intros w. unfold fetch_user_data.
  destruct (get_user_data E None (Some token)) as [ud|]; [|done].
  by destruct (negb _).
Qed.

Lemma et_task_world {A : Type} (func : M A) (w : world) :
  (et_task func w).2 = (func w).2.
Proof.
  unfold et_task. destruct (func w) as [[e | a] w1]; [|done].
  by destruct (is_retryable e).
Qed.




(** ** Replaying a failed task *)

Lemma has_failed_task_after_delete (key : nat) (rows : list FailedTask) :
  existsb (fun r => Nat.eqb (pk r) key)
    (List.filter (fun r => negb (Nat.eqb (pk r) key)) rows) = false.
Proof.
  induction rows as [|r rows IH]; [reflexivity|]. simpl.
  destruct (Nat.eqb (pk r) key) eqn:Hk; simpl; [exact IH|].
  by rewrite Hk.
Qed.

(** C7 (amended): [FailedTask.retry] deletes the record as soon as the new
    task message has been handed to the broker, without waiting for the
    replayed operation, which has not run by then (no vendor call has been
    issued); the record is kept only when the replay could not be queued,
    that is when converting the stored arguments or publishing the message
    raises. *)
Theorem FailedTask_retry_deletes_once_queued (E : Env) (self : FailedTask) (w : world) :
  match FailedTask_retry E self w with
  | (inr _, w') =>
      has_failed_task (pk self) w' = false ∧
      vendor_log w' = vendor_log w ∧
      ∃ fargs, filtered_args (args self) = inr fargs ∧
               broker_queue w' =
                 (broker_queue w ++
                  [ {| st_name := name self; st_args := fargs;
                       st_kwargs := kwargs self; st_retries := 0 |} ])%list
  | (inl _, w') => w' = w
  end.
Proof.
  unfold FailedTask_retry.
  destruct (filtered_args (args self)) as [e | fargs]; [reflexivity|].
  unfold bind, apply_async.
  destruct (broker E (broker_queue w) _) as [e|]; [reflexivity|].
  simpl. split; [apply has_failed_task_after_delete|]. split; [reflexivity|].
  by exists fargs.
Qed.

(** C7, as stated, fails: the stored recovery message is replayed while the
    vendor still rejects the message id.  [retry] returns and the record is
    gone; the worker then runs the queued task, which fails with
    [BasketError], and the table holds a new record under the new task id. *)
Lemma FailedTask_retry_deletes_before_replay_fails :
  let w1 := (FailedTask_retry rejecting_env sample_failed_task world_with_failed_task).2 in
  let msg := {| st_name := "news.tasks.send_recovery_message_task";
                st_args := [JStr "ada@example.com"]; st_kwargs := []; st_retries := 0 |} in
  let replay := worker_run rejecting_env (registered_task rejecting_env) "9c41" msg w1 in
  has_failed_task (pk sample_failed_task) world_with_failed_task = true ∧
  (FailedTask_retry rejecting_env sample_failed_task world_with_failed_task).1 = inr tt ∧
  has_failed_task (pk sample_failed_task) w1 = false ∧
  broker_queue w1 = [msg] ∧
  replay.1 = TaskFailed (BasketError "ET says no such message ID: 'fr_recovery_message'") ∧
  map task_id (failed_tasks replay.2) = ["9c41"].
Proof.
  vm_compute. repeat split; reflexivity.
Qed.

(** * Further properties of the code *)

(** ** Keys written by [parse_newsletters] *)

Lemma string_app_cons (c : ascii) (a b : string) : String c a ++ b = String c (a ++ b).
Proof. reflexivity. Qed.

Lemma last_char_app (a : string) (c : ascii) (t : string) :
  last_char (a ++ String c t) = last_char (String c t).
Proof.
  induction a as [|x a IH]; [reflexivity|].
  rewrite string_app_cons.
  change (last_char (String x (a ++ String c t)))
    with (match a ++ String c t with
          | EmptyString => Some x
          | String _ _ => last_char (a ++ String c t)
          end).
  destruct (a ++ String c t) eqn:Heq.
  - destruct a; discriminate Heq.
  - exact IH.
Qed.

Lemma FLG_neq_DATE (a b : string) : a ++ "_FLG" ≠ b ++ "_DATE".
Proof.
  intros H. apply (f_equal last_char) in H.
  rewrite !last_char_app in H. discriminate H.
Qed.

Lemma string_length_app (a b : string) :
  String.length (a ++ b) = (String.length a + String.length b)%nat.
Proof.
  induction a as [|x a IH]; [reflexivity|].
  rewrite string_app_cons. simpl. by rewrite IH.
Qed.

Lemma string_app_inv_tail (a b t : string) : a ++ t = b ++ t → a = b.
Proof.
  revert b. induction a as [|x a IH]; intros [|y b] H.
  - reflexivity.
  - apply (f_equal String.length) in H. rewrite !string_length_app in H.
    simpl in H. lia.
  - apply (f_equal String.length) in H. rewrite !string_length_app in H.
    simpl in H. lia.
  - rewrite !string_app_cons in H. injection H as -> H. f_equal. by apply IH.
Qed.

Section RecordFacts.

Variable E : Env.

Lemma set_flag_lookup_other record name flag k :
  k ≠ name ++ "_FLG" → k ≠ name ++ "_DATE" →
  set_flag E record name flag !! k = record !! k.
Proof.
  intros H1 H2. unfold set_flag. by rewrite !lookup_insert_ne.
Qed.

Lemma set_flag_lookup_FLG record name flag :
  set_flag E record name flag !! (name ++ "_FLG") = Some flag.
Proof.
  unfold set_flag. rewrite lookup_insert_ne; [apply lookup_insert_eq|].
  intros H. symmetry in H. by apply FLG_neq_DATE in H.
Qed.

Lemma set_flag_lookup_DATE record name flag :
  set_flag E record name flag !! (name ++ "_DATE") = Some (today E).
Proof. unfold set_flag. apply lookup_insert_eq. Qed.

(** A flag already set to the loop's value stays put under [set_flag]. *)
Lemma set_flag_keeps_FLG record name name' flag :
  record !! (name ++ "_FLG") = Some flag →
  set_flag E record name' flag !! (name ++ "_FLG") = Some flag.
Proof.
  intros H. unfold set_flag.
  rewrite lookup_insert_ne by (intros Heq; symmetry in Heq; by apply FLG_neq_DATE in Heq).
  destruct (decide (name' ++ "_FLG" = name ++ "_FLG")) as [-> | Hne].
  - apply lookup_insert_eq.
  - by rewrite lookup_insert_ne.
Qed.

Lemma set_flag_keeps_DATE record name name' flag :
  record !! (name ++ "_DATE") = Some (today E) →
  set_flag E record name' flag !! (name ++ "_DATE") = Some (today E).
Proof.
  intros H. unfold set_flag.
  destruct (decide (name' ++ "_DATE" = name ++ "_DATE")) as [-> | Hne].
  - apply lookup_insert_eq.
  - rewrite lookup_insert_ne by done.
    rewrite lookup_insert_ne; [done|]. intros Heq. by apply FLG_neq_DATE in Heq.
Qed.

End RecordFacts.

Section FlagLoop.

Variable E : Env.
Variable flag : string.
Variable test : string -> bool.

Let kept (nl : string) : bool := Py.truthy_opt (newsletter_field E nl) && test nl.

Lemma flag_loop_frame record slugs k :
  k ∉ flag_keys E (List.filter kept slugs) →
  flag_loop E flag test record slugs !! k = record !! k.
Proof.
  revert record. induction slugs as [|nl rest IH]; intros record Hk; [reflexivity|].
  simpl in *. fold (kept nl) in *. destruct (kept nl).
  - simpl in Hk. fold (field_name E nl) in Hk.
    apply not_elem_of_cons in Hk as [Hk1 Hk].
    apply not_elem_of_cons in Hk as [Hk2 Hk].
    rewrite IH by exact Hk.
    by apply set_flag_lookup_other.
  - by apply IH.
Qed.

Lemma flag_loop_keeps_FLG record slugs name :
  record !! (name ++ "_FLG") = Some flag →
  flag_loop E flag test record slugs !! (name ++ "_FLG") = Some flag.
Proof.
  revert record. induction slugs as [|nl rest IH]; intros record H; [exact H|].
  simpl. destruct (_ && _); apply IH; [by apply set_flag_keeps_FLG | exact H].
Qed.

Lemma flag_loop_keeps_DATE record slugs name :
  record !! (name ++ "_DATE") = Some (today E) →
  flag_loop E flag test record slugs !! (name ++ "_DATE") = Some (today E).
Proof.
  revert record. induction slugs as [|nl rest IH]; intros record H; [exact H|].
  simpl. destruct (_ && _); apply IH; [by apply set_flag_keeps_DATE | exact H].
Qed.

Lemma flag_loop_written record slugs nl :
  nl ∈ List.filter kept slugs →
  flag_loop E flag test record slugs !! (field_name E nl ++ "_FLG") = Some flag ∧
  flag_loop E flag test record slugs !! (field_name E nl ++ "_DATE") = Some (today E).
Proof.
  revert record. induction slugs as [|x rest IH]; intros record Hin.
  - by apply elem_of_nil in Hin.
  - simpl in *. fold (kept x) in *. destruct (kept x).
    + apply elem_of_cons in Hin as [-> | Hin]; [|by apply IH].
      split.
      * apply flag_loop_keeps_FLG, set_flag_lookup_FLG.
      * apply flag_loop_keeps_DATE, set_flag_lookup_DATE.
    + by apply IH.
Qed.

End FlagLoop.

Lemma subscribe_loop_fst (E : Env) cur record acc l :
  (subscribe_loop E cur record acc l).1 = flag_loop E "Y" (unknown_or_absent cur) record l.
Proof.
  revert record acc. induction l as [|nl rest IH]; intros record acc; [reflexivity|].
  simpl. destruct (_ && _); apply IH.
Qed.

Lemma unsubscribe_loop_fst (E : Env) cur record acc l :
  (unsubscribe_loop E cur record acc l).1 = flag_loop E "N" (unknown_or_present cur) record l.
Proof.
  revert record acc. induction l as [|nl rest IH]; intros record acc; [reflexivity|].
  simpl. destruct (_ && _); apply IH.
Qed.

(** The record [parse_newsletters] hands back, as the two loops in a row. *)
Lemma parse_newsletters_record (E : Env) record type newsletters cur :
  (parse_newsletters E record type newsletters cur).1 =
  let r1 := if String.eqb type SUBSCRIBE || String.eqb type SET
            then flag_loop E "Y" (unknown_or_absent cur) record newsletters
            else record in
  if String.eqb type UNSUBSCRIBE || String.eqb type SET
  then flag_loop E "N" (unknown_or_present cur) r1 (unsubs_of E type newsletters cur)
  else r1.
Proof.
  unfold parse_newsletters.
  destruct (String.eqb type SUBSCRIBE || String.eqb type SET);
    destruct (String.eqb type UNSUBSCRIBE || String.eqb type SET); simpl.
  - pose proof (subscribe_loop_fst E cur record [] newsletters) as Hs.
    destruct (subscribe_loop E cur record [] newsletters) as [r1 s1]. simpl in Hs.
    pose proof (unsubscribe_loop_fst E cur r1 [] (unsubs_of E type newsletters cur)) as Hu.
    destruct (unsubscribe_loop E cur r1 []) as [r2 u1]. simpl in Hu.
    simpl. by rewrite Hu, Hs.
  - pose proof (subscribe_loop_fst E cur record [] newsletters) as Hs.
    destruct (subscribe_loop E cur record [] newsletters) as [r1 s1]. by simpl in *.
  - pose proof (unsubscribe_loop_fst E cur record [] (unsubs_of E type newsletters cur)) as Hu.
    destruct (unsubscribe_loop E cur record []) as [r2 u1]. by simpl in *.
  - reflexivity.
Qed.

Lemma flag_keys_app (E : Env) (a b : list string) :
  flag_keys E (a ++ b) = (flag_keys E a ++ flag_keys E b)%list.
Proof. unfold flag_keys. apply flat_map_app. Qed.

Lemma parse_newsletters_keeps_key
    (E : Env) (record : gmap string string) (type : string)
    (newsletters : list string) (cur : option (gset string)) (k : string) :
  let result := parse_newsletters E record type newsletters cur in
  k ∉ flag_keys E (result.2.1 ++ result.2.2) → result.1 !! k = record !! k.
Proof.
  intros result Hk.
  rewrite flag_keys_app in Hk. apply not_elem_of_app in Hk as [Hs Hu].
  unfold result in *. rewrite parse_newsletters_lists in Hs, Hu. simpl in Hs, Hu.
  rewrite parse_newsletters_record. simpl.
  destruct (String.eqb type SUBSCRIBE || String.eqb type SET);
    destruct (String.eqb type UNSUBSCRIBE || String.eqb type SET);
    rewrite ?flag_loop_frame by done; reflexivity.
Qed.

(** X1: [parse_newsletters] changes [record] only at the [_FLG] and [_DATE]
    keys of the slugs it returns: any other key, present or not, reads the
    same before and after.  In particular the record is handed back as it was
    when both returned lists are empty. *)
Theorem parse_newsletters_record_frame
    (E : Env) (record : gmap string string) (type : string)
    (newsletters : list string) (cur : option (gset string)) (k : string) :
  let result := parse_newsletters E record type newsletters cur in
  k ∈ flag_keys E (result.2.1 ++ result.2.2) ∨ result.1 !! k = record !! k.
Proof.
  intros result.
  destruct (decide (k ∈ flag_keys E (result.2.1 ++ result.2.2))) as [Hin | Hk];
    [by left | right].
  by apply parse_newsletters_keeps_key.
Qed.

Lemma field_name_FLG_inj (E : Env) (a b : string) :
  field_name E a ++ "_FLG" = field_name E b ++ "_FLG" → field_name E a = field_name E b.
Proof. apply string_app_inv_tail. Qed.

(** X2: every slug of [to_unsubscribe] has its vendor field flagged ['N'] and
    dated today in the returned record. *)
Theorem parse_newsletters_unsubscribe_flags
    (E : Env) (record : gmap string string) (type : string)
    (newsletters : list string) (cur : option (gset string)) :
  let result := parse_newsletters E record type newsletters cur in
  Forall (fun nl =>
            result.1 !! (field_name E nl ++ "_FLG") = Some "N" ∧
            result.1 !! (field_name E nl ++ "_DATE") = Some (today E))
    result.2.2.
Proof.
  intros result. apply Forall_forall. intros nl Hin. unfold result in *.
  rewrite parse_newsletters_lists in Hin. simpl in Hin.
  rewrite parse_newsletters_record. simpl.
  destruct (String.eqb type UNSUBSCRIBE || String.eqb type SET).
  - by apply flag_loop_written.
  - by apply elem_of_nil in Hin.
Qed.

(** X3: every slug of [to_subscribe] has its vendor field dated today in the
    returned record, and flagged ['Y'] unless a slug of [to_unsubscribe]
    shares that vendor field, in which case the later ['N'] stands. *)
Theorem parse_newsletters_subscribe_flags
    (E : Env) (record : gmap string string) (type : string)
    (newsletters : list string) (cur : option (gset string)) :
  let result := parse_newsletters E record type newsletters cur in
  Forall (fun nl =>
            result.1 !! (field_name E nl ++ "_DATE") = Some (today E) ∧
            (result.1 !! (field_name E nl ++ "_FLG") = Some "Y" ∨
             result.1 !! (field_name E nl ++ "_FLG") = Some "N" ∧
             ∃ nl', nl' ∈ result.2.2 ∧ field_name E nl' = field_name E nl))
    result.2.1.
Proof.
  intros result. apply Forall_forall. intros nl Hin.
  pose proof (parse_newsletters_unsubscribe_flags E record type newsletters cur) as Hu.
  fold result in Hu. simpl in Hu. rewrite Forall_forall in Hu.
  assert (Hsub : String.eqb type SUBSCRIBE || String.eqb type SET = true ∧
    flag_loop E "Y" (unknown_or_absent cur) record newsletters
      !! (field_name E nl ++ "_FLG") = Some "Y" ∧
    flag_loop E "Y" (unknown_or_absent cur) record newsletters
      !! (field_name E nl ++ "_DATE") = Some (today E)).
  { unfold result in Hin. rewrite parse_newsletters_lists in Hin. simpl in Hin.
    destruct (String.eqb type SUBSCRIBE || String.eqb type SET).
    - split; [done|]. by apply flag_loop_written.
    - by apply elem_of_nil in Hin. }
  destruct Hsub as (Ht & HY & HD).
  assert (Hrec : result.1 =
    if String.eqb type UNSUBSCRIBE || String.eqb type SET
    then flag_loop E "N" (unknown_or_present cur)
           (flag_loop E "Y" (unknown_or_absent cur) record newsletters)
           (unsubs_of E type newsletters cur)
    else flag_loop E "Y" (unknown_or_absent cur) record newsletters).
  { unfold result. rewrite parse_newsletters_record. simpl. by rewrite Ht. }
  assert (Hlist : result.2.2 =
    if String.eqb type UNSUBSCRIBE || String.eqb type SET
    then List.filter (fun nl => Py.truthy_opt (newsletter_field E nl) &&
                                unknown_or_present cur nl)
           (unsubs_of E type newsletters cur)
    else []).
  { unfold result. by rewrite parse_newsletters_lists. }
  destruct (String.eqb type UNSUBSCRIBE || String.eqb type SET).
  - split.
    + rewrite Hrec. by apply flag_loop_keeps_DATE.
    + destruct (decide (Exists (fun nl' => field_name E nl' = field_name E nl) result.2.2))
        as [Hex | Hno].
      * right. apply Exists_exists in Hex as (nl' & Hin' & Heq).
        split; [|by exists nl'].
        rewrite <- Heq. by apply Hu.
      * left. rewrite Hrec, flag_loop_frame; [exact HY|].
        rewrite <- Hlist. intros Hk. apply Hno. apply Exists_exists.
        unfold flag_keys in Hk. apply list_elem_of_In, in_flat_map in Hk.
        destruct Hk as (nl' & Hin' & Hk). apply list_elem_of_In in Hin'.
        exists nl'. split; [done|].
        fold (field_name E nl') in Hk. simpl in Hk.
        destruct Hk as [Hk | [Hk | []]].
        -- by apply field_name_FLG_inj.
        -- symmetry in Hk. by apply FLG_neq_DATE in Hk.
  - rewrite Hrec. split; [done | by left].
Qed.

(** ** What a run leaves alone *)

Lemma evolves_refl (w : world) : evolves w w.
Proof.
  split; [|split].
  - exists []. by rewrite app_nil_r.
  - by intros id H.
  - by split.
Qed.

Lemma evolves_trans (w1 w2 w3 : world) : evolves w1 w2 → evolves w2 w3 → evolves w1 w3.
Proof.
  intros ([c1 H1] & Hd1 & Hf1 & Hq1) ([c2 H2] & Hd2 & Hf2 & Hq2).
  split; [|split].
  - exists (c1 ++ c2)%list. by rewrite H2, H1, app_assoc.
  - intros id H. by apply Hd2, Hd1.
  - split; congruence.
Qed.

Lemma well_behaved_unchanged {A : Type} (m : M A) :
  (∀ w, (m w).2 = w) → well_behaved m.
Proof. intros H w. rewrite H. apply evolves_refl. Qed.

Lemma well_behaved_ret {A : Type} (x : A) : well_behaved (ret x).
Proof. by apply well_behaved_unchanged. Qed.

Lemma well_behaved_raise {A : Type} (e : exn) : well_behaved (raise (A:=A) e).
Proof. by apply well_behaved_unchanged. Qed.

Lemma well_behaved_subscript {A : Type} (v : option A) (key : string) :
  well_behaved (subscript v key).
Proof. apply well_behaved_unchanged. by destruct v. Qed.

Lemma well_behaved_bind {A B : Type} (m : M A) (k : A -> M B) :
  well_behaved m → (∀ a, well_behaved (k a)) → well_behaved (bind m k).
Proof.
  intros Hm Hk w. unfold bind. specialize (Hm w).
  destruct (m w) as [[e | a] w1]; simpl in Hm; [exact Hm|].
  eapply evolves_trans; [exact Hm | apply Hk].
Qed.

Lemma well_behaved_try {A : Type} (m : M A) : well_behaved m → well_behaved (try m).
Proof.
  intros Hm w. unfold try. specialize (Hm w). by destruct (m w) as [r w1].
Qed.

Lemma evolves_log_call (c : vendor_call) (w : world) : evolves w (log_call c w).
Proof.
  split; [|split].
  - by exists [c].
  - by intros id H.
  - by split.
Qed.

Lemma well_behaved_vendor_do (E : Env) (c : vendor_call) : well_behaved (vendor_do E c).
Proof.
  intros w. unfold vendor_do.
  destruct (vendor E (vendor_log w) c); apply evolves_log_call.
Qed.

Lemma well_behaved_cache_set_true (E : Env) (message_id : string) :
  well_behaved (cache_set message_id true).
Proof.
  intros w. split; [|split].
  - exists []. simpl. by rewrite app_nil_r.
  - intros id H. simpl.
    destruct (decide (message_id = id)) as [-> | Hne];
      [apply lookup_insert_eq | by rewrite lookup_insert_ne].
  - by split.
Qed.

Lemma well_behaved_for_each {A : Type} (l : list A) (body : A -> M unit) :
  (∀ x, well_behaved (body x)) → well_behaved (for_each l body).
Proof.
  intros Hb. induction l as [|x rest IH]; [apply well_behaved_ret|].
  simpl. apply well_behaved_bind; [apply Hb | intros _; exact IH].
Qed.

Lemma well_behaved_send_message (E : Env) (message_id email token format : string) :
  well_behaved (send_message E message_id email token format).
Proof.
  unfold send_message.
  apply well_behaved_bind; [by apply well_behaved_unchanged|]. intros [|].
  - apply well_behaved_ret.
  - apply well_behaved_bind; [apply well_behaved_try, well_behaved_vendor_do|].
    intros [e | []]; [|apply well_behaved_ret].
    destruct e as [message | | | | |]; try apply well_behaved_raise.
    destruct (Py.contains _ message).
    + apply well_behaved_bind; [by apply well_behaved_cache_set_true|].
      intros _. apply well_behaved_raise.
    + destruct (Py.contains _ message); apply well_behaved_raise.
Qed.

Lemma well_behaved_send_welcomes (E : Env) (ud : user_data) (slugs : list string)
    (format : string) :
  well_behaved (send_welcomes E ud slugs format).
Proof.
  unfold send_welcomes. destruct slugs as [|s rest]; [apply well_behaved_ret|].
  apply well_behaved_for_each. intros welcome.
  apply well_behaved_bind; [apply well_behaved_subscript|].
  intros email. apply well_behaved_send_message.
Qed.

Lemma well_behaved_send_confirm_notice (E : Env) (email token lang format : string)
    (slugs : list string) :
  well_behaved (send_confirm_notice E email token lang format slugs).
Proof.
  unfold send_confirm_notice.
  destruct (negb _); [apply well_behaved_raise | apply well_behaved_send_message].
Qed.

Lemma well_behaved_confirm_user_body (E : Env) (token : string) (ud : option user_data) :
  well_behaved (confirm_user_body E token ud).
Proof.
  unfold confirm_user_body.
  destruct (match ud with None => _ | Some _ => _ end) as [u|]; [|apply well_behaved_raise].
  apply well_behaved_bind; [apply well_behaved_subscript|]. intros status.
  destruct (String.eqb status "error"); [apply well_behaved_raise|].
  destruct (ud_confirmed u); [apply well_behaved_ret|].
  destruct (negb _); [apply well_behaved_raise|].
  apply well_behaved_bind; [apply well_behaved_vendor_do|]. intros _.
  apply well_behaved_bind; [apply well_behaved_subscript|]. intros nls.
  apply well_behaved_send_welcomes.
Qed.

Lemma call_directly_et_task_world {A : Type} (func : M A) (w : world) :
  (call_directly (et_task func) w).2 = (func w).2.
Proof.
  unfold call_directly, et_task. destruct (func w) as [[e | a] w1]; [|done].
  by destruct (is_retryable e).
Qed.

Lemma well_behaved_update_user_body (E : Env) (data : gmap string string)
    (email token : string) (created : bool) (type : string) (optin : bool) :
  well_behaved (update_user_body E data email token created type optin).
Proof.
  unfold update_user_body.
  apply well_behaved_bind.
  { apply well_behaved_unchanged. intros w. unfold fetch_user_data.
    destruct (get_user_data E None (Some token)) as [ud|]; [|done]. by destruct (negb _). }
  intros ud. apply well_behaved_bind.
  { destruct (Py.truthy _); [apply well_behaved_ret|].
    apply well_behaved_bind; [apply well_behaved_subscript | intros; apply well_behaved_ret]. }
  intros [ud2 lang2].
  destruct (match data !! "format" with Some _ => _ | None => _ end) as [fmt record].
  destruct (parse_newsletters E record type (requested_newsletters data) _)
    as [record' [s u]].
  assert (Hw : ∀ b, well_behaved (if b : bool then send_welcomes E ud2 s fmt else ret tt)).
  { intros [|]; [apply well_behaved_send_welcomes | apply well_behaved_ret]. }
  destruct (ud_confirmed ud2); [|destruct (exempt_from_confirmation E optin s)].
  - apply well_behaved_bind; [apply well_behaved_vendor_do|]. intros _.
    apply well_behaved_bind; [apply Hw | intros; apply well_behaved_ret].
  - destruct (ud_pending ud2).
    + apply well_behaved_bind; [apply well_behaved_vendor_do|]. intros _.
      apply well_behaved_bind; [|intros; apply well_behaved_ret].
      intros w. unfold confirm_user. rewrite call_directly_et_task_world.
      apply well_behaved_confirm_user_body.
    + apply well_behaved_bind; [apply well_behaved_vendor_do|]. intros _.
      apply well_behaved_bind; [apply Hw | intros; apply well_behaved_ret].
  - destruct (ud_pending ud2).
    + apply well_behaved_bind; [apply well_behaved_vendor_do|]. intros _.
      apply well_behaved_bind; [apply well_behaved_send_confirm_notice|].
      intros; apply well_behaved_ret.
    + apply well_behaved_bind; [apply well_behaved_vendor_do|]. intros _.
      apply well_behaved_bind; [apply well_behaved_send_confirm_notice|].
      intros; apply well_behaved_ret.
Qed.

(** X4: whatever its outcome (a return code, a retry or an escaping error),
    a run of [update_user] only appends calls to the vendor log, leaves every
    deny-listed message id deny-listed, and does not touch the [FailedTask]
    table or the broker queue. *)
Theorem update_user_evolves
    (E : Env) (data : gmap string string) (email token : string) (created : bool)
    (type : string) (optin : bool) (w : world) :
  evolves w (update_user E data email token created type optin w).2.
Proof.
  unfold update_user. rewrite et_task_world. apply well_behaved_update_user_body.
Qed.

(** ** Welcome messages *)

Lemma send_message_log (E : Env) (message_id email token format : string) (w : world) :
  ∃ calls,
    vendor_log (send_message E message_id email token format w).2 =
      (vendor_log w ++ calls)%list ∧
    calls `sublist_of` [trigger_send message_id email token format].
Proof.
  unfold send_message, bind, cache_get, try, vendor_do.
  destruct (default false _).
  - exists []. simpl. rewrite app_nil_r. split; [done | apply sublist_nil_l].
  - exists [trigger_send message_id email token format]. split; [|done].
    destruct (vendor E _ _) as [e|]; [|done].
    destruct e as [message | | | | |]; try done.
    destruct (Py.contains _ message); [done|].
    by destruct (Py.contains _ message).
Qed.

Lemma for_each_send_log (E : Env) (ud : user_data) (format : string)
    (ids : list string) (w : world) :
  ∃ calls,
    vendor_log
      (for_each ids (fun welcome =>
         email <- subscript (ud_email ud) "email" ;;
         send_message E welcome email (ud_token ud) format) w).2 =
      (vendor_log w ++ calls)%list ∧
    calls `sublist_of`
      ((fun m => trigger_send m (default "" (ud_email ud)) (ud_token ud) format) <$> ids).
Proof.
  revert w. induction ids as [|m rest IH]; intros w.
  - exists []. simpl. rewrite app_nil_r. split; [done | apply sublist_nil_l].
  - simpl. unfold bind at 1.
    destruct (ud_email ud) as [email|] eqn:Hemail; simpl.
    + unfold bind at 1. simpl.
      destruct (send_message_log E m email (ud_token ud) format w) as (c1 & Hc1 & Hs1).
      destruct (send_message E m email (ud_token ud) format w) as [[e | []] w1];
        simpl in Hc1.
      * exists c1. split; [done|].
        etrans; [exact Hs1|]. simpl. apply sublist_skip, sublist_nil_l.
      * destruct (IH w1) as (c2 & Hc2 & Hs2). simpl in Hc2.
        exists (c1 ++ c2)%list. rewrite Hc2, Hc1, app_assoc. split; [done|].
        by apply (sublist_app c1 [_] c2 _).
    + exists []. rewrite app_nil_r. split; [done | apply sublist_nil_l].
Qed.

Lemma elem_of_collect_welcomes (ud : user_data) (format : string)
    (acc : gset string) (nls : list Newsletter) (m : string) :
  m ∈ collect_welcomes ud format acc nls ↔
  m ∈ acc ∨ ∃ nl, nl ∈ nls ∧ Py.truthy (Py.strip (welcome nl)) = true ∧
                  m = welcome_message_id ud format nl.
Proof.
  revert acc. induction nls as [|x rest IH]; intros acc; simpl.
  - split; [by left | intros [H | (nl & Hin & _)]; [done | by apply elem_of_nil in Hin]].
  - destruct (Py.truthy (Py.strip (welcome x))) eqn:Ht; simpl; rewrite IH.
    + fold (welcome_lang_code ud x). fold (welcome_message_id ud format x).
      rewrite elem_of_union, elem_of_singleton. split.
      * intros [[H | ->] | (nl & Hin & Hnl)]; [by left | |].
        -- right. exists x. split; [left|]; done.
        -- right. exists nl. split; [by right | done].
      * intros [H | (nl & Hin & Htr & ->)]; [by left; left|].
        apply elem_of_cons in Hin as [-> | Hin]; [by left; right|].
        right. by exists nl.
    + split.
      * intros [H | (nl & Hin & Hnl)]; [by left|]. right. exists nl.
        split; [by right | done].
      * intros [H | (nl & Hin & Htr & ->)]; [by left|].
        apply elem_of_cons in Hin as [-> | Hin]; [congruence|].
        right. by exists nl.
Qed.

(** The newsletters [send_welcomes] keeps: rows of the table whose slug was
    asked for, without the Firefox & You rows when a Firefox OS row is among
    them. *)
Lemma elem_of_welcome_selection (E : Env) (slugs : list string) (nl : Newsletter) :
  let newsletters := filter_slug_in slugs (Newsletter_objects E) in
  nl ∈ (if existsb (fun nl => String.eqb (vendor_id nl) FFOS_VENDOR_ID) newsletters
        then List.filter (fun nl => negb (String.eqb (vendor_id nl) FFAY_VENDOR_ID)) newsletters
        else newsletters) →
  nl ∈ Newsletter_objects E ∧ slug nl ∈ slugs ∧
  ((∃ os, os ∈ Newsletter_objects E ∧ slug os ∈ slugs ∧ vendor_id os = FFOS_VENDOR_ID) →
   vendor_id nl ≠ FFAY_VENDOR_ID).
Proof.
  intros newsletters Hin.
  assert (Hsel : ∀ x, x ∈ newsletters ↔ x ∈ Newsletter_objects E ∧ slug x ∈ slugs).
  { intros x. unfold newsletters, filter_slug_in.
    rewrite list_elem_of_In, filter_In, <- list_elem_of_In, bool_decide_eq_true. done. }
  destruct (existsb _ newsletters) eqn:Hos.
  - apply list_elem_of_In, filter_In in Hin as [Hin Hne].
    apply list_elem_of_In, Hsel in Hin as [? ?].
    split; [done|]. split; [done|]. intros _ Heq.
    rewrite Heq in Hne. discriminate Hne.
  - apply Hsel in Hin as [? ?]. split; [done|]. split; [done|].
    intros (os & Ho1 & Ho2 & Ho3).
    assert (Hc : existsb (fun nl => String.eqb (vendor_id nl) FFOS_VENDOR_ID) newsletters
                 = true).
    { apply existsb_exists. exists os. split.
      - apply list_elem_of_In, Hsel. done.
      - by apply String.eqb_eq. }
    congruence.
Qed.

(** X5: every call [send_welcomes] issues is a triggered send, addressed to
    the user's email and token in the given format, of the welcome of a
    newsletter of the table whose slug was asked for and whose welcome is not
    blank, localised to the user's two-letter language when that newsletter
    lists it and to English otherwise; and when a Firefox OS newsletter is
    among those asked for, that newsletter is never a Firefox & You one. *)
Theorem send_welcomes_calls
    (E : Env) (ud : user_data) (slugs : list string) (format : string) (w : world) :
  ∃ calls,
    vendor_log (send_welcomes E ud slugs format w).2 = (vendor_log w ++ calls)%list ∧
    Forall (fun c =>
              ∃ nl email,
                ud_email ud = Some email ∧
                c = trigger_send (welcome_message_id ud format nl) email (ud_token ud) format ∧
                nl ∈ Newsletter_objects E ∧ slug nl ∈ slugs ∧
                Py.strip (welcome nl) ≠ "" ∧
                ((∃ os, os ∈ Newsletter_objects E ∧ slug os ∈ slugs ∧
                        vendor_id os = FFOS_VENDOR_ID) →
                 vendor_id nl ≠ FFAY_VENDOR_ID))
      calls.
Proof.
  unfold send_welcomes. destruct slugs as [|s0 rest].
  { exists []. simpl. by rewrite app_nil_r. }
  set (slugs := s0 :: rest).
  match goal with |- context [for_each (elements ?X) _] => set (ids := X) end.
  destruct (for_each_send_log E ud format (elements ids) w) as (calls & Hlog & Hsub).
  exists calls. split; [exact Hlog|].
  apply Forall_forall. intros c Hc.
  apply (sublist_submseteq _ _) in Hsub.
  apply (elem_of_submseteq _ _ _ Hc) in Hsub.
  apply list_elem_of_fmap in Hsub as (m & -> & Hm).
  apply elem_of_elements in Hm. unfold ids in Hm.
  apply elem_of_collect_welcomes in Hm as [Hm | (nl & Hin & Htr & ->)]; [set_solver|].
  apply elem_of_welcome_selection in Hin as (Ht & Hs & Hos).
  destruct (ud_email ud) as [email|] eqn:Hemail.
  - exists nl, email. simpl. repeat split; try done.
    intros Heq. rewrite Heq in Htr. discriminate Htr.
  - exfalso. clear -Hc Hlog.
    destruct (elements ids); simpl in Hlog;
      apply (f_equal length) in Hlog; rewrite length_app in Hlog;
      (destruct calls; [by apply elem_of_nil in Hc | simpl in Hlog; lia]).
Qed.

(** X6: [send_welcomes] never issues the same call twice: the calls it adds
    to the vendor log are pairwise distinct, one at most per resolved
    message id. *)
Theorem send_welcomes_no_duplicates
    (E : Env) (ud : user_data) (slugs : list string) (format : string) (w : world) :
  ∃ calls,
    vendor_log (send_welcomes E ud slugs format w).2 = (vendor_log w ++ calls)%list ∧
    NoDup calls.
Proof.
  unfold send_welcomes. destruct slugs as [|s0 rest].
  { exists []. simpl. rewrite app_nil_r. split; [done | constructor]. }
  match goal with |- context [for_each (elements ?X) _] => set (ids := X) end.
  destruct (for_each_send_log E ud format (elements ids) w) as (calls & Hlog & Hsub).
  exists calls. split; [exact Hlog|].
  refine (sublist_NoDup _ _ _ Hsub).
  apply NoDup_fmap_2; [|apply NoDup_elements].
  intros a b Hab. by injection Hab.
Qed.

(** X7: when none of the newsletters asked for has a welcome configured,
    [send_welcomes] returns normally and the world is as before: sending no
    welcome is not an error. *)
Theorem send_welcomes_none_configured
    (E : Env) (ud : user_data) (slugs : list string) (format : string) (w : world) :
  (∀ nl, nl ∈ Newsletter_objects E → slug nl ∈ slugs → Py.strip (welcome nl) = "") →
  send_welcomes E ud slugs format w = (inr tt, w).
Proof.
  intros Hnone. unfold send_welcomes. destruct slugs as [|s0 rest]; [reflexivity|].
  match goal with |- context [for_each (elements ?X) _] => set (ids := X) end.
  assert (Hids : ids = ∅).
  { apply set_eq. intros m. split; [|set_solver]. intros Hm. unfold ids in Hm.
    apply elem_of_collect_welcomes in Hm as [Hm | (nl & Hin & Htr & _)]; [done|].
    apply elem_of_welcome_selection in Hin as (Ht & Hs & _).
    rewrite (Hnone nl Ht Hs) in Htr. discriminate Htr. }
  rewrite Hids, elements_empty. reflexivity.
Qed.

(** ** The deny list, end to end *)

Lemma send_message_marks_bad (E : Env) (message_id email token format : string)
    (w : world) (message : string) :
  default false (BAD_MESSAGE_ID_CACHE w !! message_id) = false →
  vendor E (vendor_log w) (trigger_send message_id email token format)
    = Some (NewsletterException message) →
  Py.contains "Invalid Customer Key" message = true →
  BAD_MESSAGE_ID_CACHE (send_message E message_id email token format w).2 !! message_id
    = Some true.
Proof.
  intros Hc Hv Hm. unfold send_message, bind, cache_get, try, vendor_do.
  rewrite Hc, Hv, Hm. simpl. apply lookup_insert_eq.
Qed.

(** X8: once the vendor has rejected a message id as unknown ("Invalid
    Customer Key"), no later [send_message] of that id reaches the vendor,
    whoever the recipient: in any world that keeps the deny list of the
    failed send, the call returns normally and changes nothing. *)
Theorem send_message_rejected_id_never_resent
    (E : Env) (message_id email token format : string) (w : world) (message : string)
    (w' : world) (email' token' format' : string) :
  default false (BAD_MESSAGE_ID_CACHE w !! message_id) = false →
  vendor E (vendor_log w) (trigger_send message_id email token format)
    = Some (NewsletterException message) →
  Py.contains "Invalid Customer Key" message = true →
  deny_list_kept (send_message E message_id email token format w).2 w' →
  send_message E message_id email' token' format' w' = (inr tt, w').
Proof.
  intros Hc Hv Hm Hkept.
  pose proof (send_message_marks_bad E message_id email token format w message Hc Hv Hm)
    as Hbad.
  apply Hkept in Hbad.
  unfold send_message, bind, cache_get. by rewrite Hbad.
Qed.

Lemma send_message_rejected_id_never_resent_witness :
  default false (BAD_MESSAGE_ID_CACHE empty_world !! "fr_no_such_message") = false ∧
  vendor rejecting_env (vendor_log empty_world)
    (trigger_send "fr_no_such_message" "ada@example.com" "tok-ada" "H")
    = Some (NewsletterException "Error: Invalid Customer Key") ∧
  Py.contains "Invalid Customer Key" "Error: Invalid Customer Key" = true ∧
  deny_list_kept
    (send_message rejecting_env "fr_no_such_message" "ada@example.com" "tok-ada" "H"
       empty_world).2
    (update_user rejecting_env (newsletters_only "firefox-os") "ada@example.com"
       "tok-ada" false SUBSCRIBE false
       (send_message rejecting_env "fr_no_such_message" "ada@example.com" "tok-ada" "H"
          empty_world).2).2 ∧
  send_message rejecting_env "fr_no_such_message" "bob@example.com" "tok-bob" "T"
    (update_user rejecting_env (newsletters_only "firefox-os") "ada@example.com"
       "tok-ada" false SUBSCRIBE false
       (send_message rejecting_env "fr_no_such_message" "ada@example.com" "tok-ada" "H"
          empty_world).2).2
  = (inr tt,
     (update_user rejecting_env (newsletters_only "firefox-os") "ada@example.com"
        "tok-ada" false SUBSCRIBE false
        (send_message rejecting_env "fr_no_such_message" "ada@example.com" "tok-ada" "H"
           empty_world).2).2).
Proof.
  assert (H1 : default false (BAD_MESSAGE_ID_CACHE empty_world !! "fr_no_such_message")
               = false) by reflexivity.
  assert (H2 : vendor rejecting_env (vendor_log empty_world)
                 (trigger_send "fr_no_such_message" "ada@example.com" "tok-ada" "H")
               = Some (NewsletterException "Error: Invalid Customer Key")) by reflexivity.
  assert (H3 : Py.contains "Invalid Customer Key" "Error: Invalid Customer Key" = true)
    by reflexivity.
  assert (H4 : deny_list_kept
    (send_message rejecting_env "fr_no_such_message" "ada@example.com" "tok-ada" "H"
       empty_world).2
    (update_user rejecting_env (newsletters_only "firefox-os") "ada@example.com"
       "tok-ada" false SUBSCRIBE false
       (send_message rejecting_env "fr_no_such_message" "ada@example.com" "tok-ada" "H"
          empty_world).2).2).
  { unfold update_user. rewrite et_task_world. apply well_behaved_update_user_body. }
  split; [exact H1|]. split; [exact H2|]. split; [exact H3|]. split; [exact H4|].
  exact (send_message_rejected_id_never_resent rejecting_env
           "fr_no_such_message" "ada@example.com" "tok-ada" "H" empty_world
           "Error: Invalid Customer Key" _ "bob@example.com" "tok-bob" "T" H1 H2 H3 H4).
Defined.

(** ** The confirmation notice *)

Lemma sublist_singleton_length {A : Type} (l : list A) (x : A) :
  l `sublist_of` [x] → (length l ≤ 1)%nat.
Proof. intros H. apply sublist_length in H. exact H. Qed.

(** X9: [send_confirm_notice] issues at most one vendor call, and none when
    the language (English when none is given) is not a supported newsletter
    language.  The call is a triggered send to the given email and token of a
    message localised to that language: the default confirmation message
    exactly when no newsletter asked for has a confirm message of its own,
    and otherwise the confirm message of such a newsletter. *)
Theorem send_confirm_notice_calls
    (E : Env) (email token lang format : string) (slugs : list string) (w : world) :
  let lang' := if Py.truthy lang then lang else "en" in
  ∃ calls,
    vendor_log (send_confirm_notice E email token lang format slugs w).2 =
      (vendor_log w ++ calls)%list ∧
    (length calls ≤ 1)%nat ∧
    Forall (fun c =>
              is_supported_newsletter_language E lang' = true ∧
              ∃ m, c = trigger_send (mogrify_message_id m lang' format) email token format ∧
                   (m = CONFIRMATION_MESSAGE ∧
                    (∀ nl, nl ∈ Newsletter_objects E → slug nl ∈ slugs →
                           confirm_message nl = "")
                    ∨
                    m ≠ "" ∧
                    ∃ nl, nl ∈ Newsletter_objects E ∧ slug nl ∈ slugs ∧
                          confirm_message nl = m))
      calls.
Proof.
  intros lang'. unfold send_confirm_notice. fold lang'.
  destruct (is_supported_newsletter_language E lang') eqn:Hsup; simpl.
  2:{ exists []. rewrite app_nil_r. split; [done|]. split; [simpl; lia | constructor]. }
  set (custom := List.filter (fun nl => negb (String.eqb (confirm_message nl) ""))
                   (filter_slug_in slugs (Newsletter_objects E))).
  assert (Hcustom : ∀ nl, nl ∈ custom ↔
            nl ∈ Newsletter_objects E ∧ slug nl ∈ slugs ∧ confirm_message nl ≠ "").
  { intros nl. unfold custom, filter_slug_in.
    rewrite list_elem_of_In, !filter_In, <- list_elem_of_In, bool_decide_eq_true,
      negb_true_iff, String.eqb_neq. tauto. }
  set (m := match firstn 1 custom with
            | nl :: _ => confirm_message nl
            | [] => CONFIRMATION_MESSAGE
            end).
  destruct (send_message_log E (mogrify_message_id m lang' format) email token format w)
    as (calls & Hlog & Hsub).
  exists calls. split; [exact Hlog|]. split; [by eapply sublist_singleton_length|].
  apply Forall_forall. intros c Hc.
  apply (sublist_submseteq _ _) in Hsub.
  apply (elem_of_submseteq _ _ _ Hc) in Hsub.
  apply list_elem_of_singleton in Hsub as ->.
  split; [done|]. exists m. split; [done|].
  unfold m. destruct custom as [|x rest] eqn:Hx; simpl.
  - left. split; [done|]. intros nl Ht Hs.
    destruct (decide (confirm_message nl = "")) as [|Hne]; [done|].
    assert (Hin : nl ∈ []) by (apply Hcustom; done).
    by apply elem_of_nil in Hin.
  - right. assert (Hin : x ∈ x :: rest) by left.
    apply Hcustom in Hin as (? & ? & ?). split; [done|]. by exists x.
Qed.

(** ** Confirming a user *)

Lemma send_welcomes_only_sends (E : Env) (ud : user_data) (slugs : list string)
    (format : string) (w : world) :
  ∃ calls,
    vendor_log (send_welcomes E ud slugs format w).2 = (vendor_log w ++ calls)%list ∧
    Forall (fun c => is_trigger_send c = true) calls.
Proof.
  unfold send_welcomes. destruct slugs as [|s0 rest].
  { exists []. simpl. by rewrite app_nil_r. }
  match goal with |- context [for_each (elements ?X) _] => set (ids := X) end.
  destruct (for_each_send_log E ud format (elements ids) w) as (calls & Hlog & Hsub).
  exists calls. split; [exact Hlog|].
  apply Forall_forall. intros c Hc.
  apply (sublist_submseteq _ _) in Hsub.
  apply (elem_of_submseteq _ _ _ Hc) in Hsub.
  by apply list_elem_of_fmap in Hsub as (m & -> & _).
Qed.

(** X10: [confirm_user] reaches the vendor only for a user who is known (as
    passed in, or as looked up by token when none is passed), whose status is
    not ['error'], who is not yet confirmed and who has an email address.
    Its first call then records the token in the confirmation table, and
    every later call is a triggered send; in all other cases no call is
    issued. *)
Theorem confirm_user_calls
    (E : Env) (token : string) (user_data : option user_data) (w : world) :
  let resolved :=
    match user_data with
    | None => get_user_data E None (Some token)
    | Some _ => user_data
    end in
  let w' := (confirm_user E token user_data w).2 in
  vendor_log w' = vendor_log w ∨
  ∃ ud sends,
    resolved = Some ud ∧
    (∃ status, ud_status ud = Some status ∧ status ≠ "error") ∧
    ud_confirmed ud = false ∧
    Py.truthy_opt (ud_email ud) = true ∧
    vendor_log w' =
      (vendor_log w ++
       add_record (EXACTTARGET_CONFIRMATION E) {[ "TOKEN" := token ]} :: sends)%list ∧
    Forall (fun c => is_trigger_send c = true) sends.
Proof.
  intros resolved w'. subst w'. unfold confirm_user. rewrite et_task_world.
  remember (confirm_user_body E token user_data w).2 as wf eqn:Hw.
  unfold confirm_user_body in Hw. fold resolved in Hw.
  destruct resolved as [ud|]; [|left; by subst].
  unfold bind at 1 in Hw.
  destruct (ud_status ud) as [status|] eqn:Hst; simpl in Hw; [|left; by subst].
  destruct (String.eqb status "error") eqn:Herr; [left; by subst|].
  destruct (ud_confirmed ud) eqn:Hconf; [left; by subst|].
  destruct (Py.truthy_opt (ud_email ud)) eqn:Hem; simpl in Hw; [|left; by subst].
  right. exists ud.
  assert (Hpre : ∃ status0, ud_status ud = Some status0 ∧ status0 ≠ "error").
  { exists status. split; [done|]. by apply String.eqb_neq. }
  unfold bind at 1, apply_updates, vendor_do in Hw.
  set (c0 := add_record (EXACTTARGET_CONFIRMATION E) {[ "TOKEN" := token ]}) in *.
  destruct (vendor E (vendor_log w) c0) as [e|]; simpl in Hw.
  { exists []. subst wf. repeat split; try done. }
  unfold bind at 1 in Hw. destruct (ud_newsletters ud) as [nls|]; simpl in Hw.
  2:{ exists []. subst wf. repeat split; try done. }
  destruct (send_welcomes_only_sends E ud nls (default "H" (ud_format ud)) (log_call c0 w))
    as (sends & Hlog & Hall).
  exists sends. subst wf. repeat split; try done.
  rewrite Hlog. simpl. by rewrite <- app_assoc.
Qed.

(** ** The recovery message *)

(** X11: [send_recovery_message_task] issues no vendor call for an email the
    vendor does not know, and at most one otherwise: a triggered send, to
    that email and the user's token, of the recovery message in the user's
    format (HTML when none is recorded) and language (English when none is
    recorded), so that the message id always carries a language prefix. *)
Theorem send_recovery_message_task_calls (E : Env) (email : string) (w : world) :
  ∃ calls,
    vendor_log (send_recovery_message_task E email w).2 = (vendor_log w ++ calls)%list ∧
    (length calls ≤ 1)%nat ∧
    Forall (fun c =>
              ∃ ud lang format,
                get_user_data E (Some email) None = Some ud ∧
                lang ≠ "" ∧ format ≠ "" ∧
                (ud_lang ud = Some lang ∨ lang = "en" ∧ Py.truthy_opt (ud_lang ud) = false) ∧
                (ud_format ud = Some format ∨
                 format = "H" ∧ Py.truthy_opt (ud_format ud) = false) ∧
                c = trigger_send
                      (Py.take 2 (Py.lower lang) ++ "_" ++ RECOVERY_MESSAGE_ID ++
                       (if String.eqb format "T" then "_T" else ""))
                      email (ud_token ud) format)
      calls.
Proof.
  unfold send_recovery_message_task. rewrite et_task_world.
  unfold send_recovery_message_task_body.
  destruct (get_user_data E (Some email) None) as [ud|].
  2:{ exists []. simpl. rewrite app_nil_r. split; [done|]. split; [simpl; lia | constructor]. }
  set (lang := if Py.truthy (default "en" (ud_lang ud)) then default "en" (ud_lang ud)
               else "en").
  set (format := if Py.truthy (default "H" (ud_format ud)) then default "H" (ud_format ud)
                 else "H").
  assert (Hlang : lang ≠ "" ∧
            (ud_lang ud = Some lang ∨ lang = "en" ∧ Py.truthy_opt (ud_lang ud) = false)).
  { unfold lang. destruct (ud_lang ud) as [l|]; simpl.
    - destruct (Py.truthy l) eqn:Hl.
      + split; [|by left]. intros ->. discriminate Hl.
      + split; [done | by right].
    - split; [done | by right]. }
  assert (Hformat : format ≠ "" ∧
            (ud_format ud = Some format ∨
             format = "H" ∧ Py.truthy_opt (ud_format ud) = false)).
  { unfold format. destruct (ud_format ud) as [f|]; simpl.
    - destruct (Py.truthy f) eqn:Hf.
      + split; [|by left]. intros ->. discriminate Hf.
      + split; [done | by right].
    - split; [done | by right]. }
  destruct Hlang as [Hl1 Hl2]. destruct Hformat as [Hf1 Hf2].
  destruct (send_message_log E (mogrify_message_id RECOVERY_MESSAGE_ID lang format)
              email (ud_token ud) format w) as (calls & Hlog & Hsub).
  exists calls. split; [exact Hlog|]. split; [by eapply sublist_singleton_length|].
  apply Forall_forall. intros c Hc.
  apply (sublist_submseteq _ _) in Hsub.
  apply (elem_of_submseteq _ _ _ Hc) in Hsub.
  apply list_elem_of_singleton in Hsub as ->.
  exists ud, lang, format. repeat split; try done.
  f_equal. unfold mogrify_message_id, Py.truthy.
  apply String.eqb_neq in Hl1. rewrite Hl1. simpl.
  destruct (String.eqb format "T").
  - by rewrite !string_app_assoc.
  - by rewrite string_app_empty_r.
Qed.

(** ** The message-id resolver, further *)

Lemma lower_ascii_idemp (c : ascii) : Py.lower_ascii (Py.lower_ascii c) = Py.lower_ascii c.
Proof. destruct c as [[] [] [] [] [] [] [] []]; reflexivity. Qed.

Lemma lower_idemp (s : string) : Py.lower (Py.lower s) = Py.lower s.
Proof.
  induction s as [|c s IH]; [reflexivity|]. simpl. by rewrite lower_ascii_idemp, IH.
Qed.

Lemma lower_take (n : nat) (s : string) : Py.lower (Py.take n s) = Py.take n (Py.lower s).
Proof.
  revert s. induction n as [|n IH]; intros [|c s]; try reflexivity.
  simpl. by rewrite IH.
Qed.

Lemma take_take (n : nat) (s : string) : Py.take n (Py.take n s) = Py.take n s.
Proof.
  revert s. induction n as [|n IH]; intros [|c s]; try reflexivity.
  simpl. by rewrite IH.
Qed.

Lemma take_2_nonempty (s : string) : s ≠ "" → Py.take 2 s ≠ "".
Proof. destruct s; [done | discriminate]. Qed.

Lemma lower_nonempty (s : string) : s ≠ "" → Py.lower s ≠ "".
Proof. destruct s; [done | discriminate]. Qed.

(** X12: [mogrify_message_id] looks at the language only through its first
    two characters, lower-cased: replacing the language by that two-letter
    code gives the same message id, so ['pt-BR'], ['PT'] and ['pt'] resolve
    alike. *)
Theorem mogrify_message_id_lang_code (message_id lang format : string) :
  mogrify_message_id message_id (Py.take 2 (Py.lower lang)) format =
  mogrify_message_id message_id lang format.
Proof.
  unfold mogrify_message_id, Py.truthy.
  destruct (String.eqb_spec lang "") as [-> | Hne]; [reflexivity|].
  assert (Hne' : Py.take 2 (Py.lower lang) ≠ "")
    by (by apply take_2_nonempty, lower_nonempty).
  apply String.eqb_neq in Hne'. rewrite Hne'. cbn [negb].
  by rewrite lower_take, lower_idemp, take_take.
Qed.

(** X13: for a fixed language and format, [mogrify_message_id] is injective
    in the base id: two different base ids never resolve to the same vendor
    message id. *)
Theorem mogrify_message_id_inj (a b lang format : string) :
  a ≠ b → mogrify_message_id a lang format ≠ mogrify_message_id b lang format.
Proof.
  intros Hab H. apply Hab. revert H. unfold mogrify_message_id.
  destruct (Py.truthy lang); destruct (String.eqb format "T"); intros H.
  - apply string_app_inv_tail in H.
    apply (inj (String.append _)) in H. by apply (inj (String.append _)) in H.
  - apply (inj (String.append _)) in H. by apply (inj (String.append _)) in H.
  - by apply string_app_inv_tail in H.
  - exact H.
Qed.

Lemma mogrify_message_id_inj_witness :
  "WELCOME" ≠ "WELCOME_T" ∧
  mogrify_message_id "WELCOME" "fr" "T" ≠ mogrify_message_id "WELCOME_T" "fr" "T".
Proof.
  assert (H : "WELCOME" ≠ "WELCOME_T") by discriminate.
  split; [exact H|].
  exact (mogrify_message_id_inj "WELCOME" "WELCOME_T" "fr" "T" H).
Defined.

(** ** Subscribers *)

(** X14: after [get_and_sync], the table holds for the email the subscriber
    that is returned, with the given token, and with the given fxa id when
    one is given and otherwise the fxa id it had before (none for a new
    row); the rows of all other emails are as before. *)
Theorem get_and_sync_spec
    (table : gmap string Subscriber) (email token : string) (fxa_id : option string) :
  let result := get_and_sync table email token fxa_id in
  result.2 !! email = Some result.1 ∧
  sub_token result.1 = token ∧
  sub_fxa_id result.1 =
    (if Py.truthy_opt fxa_id then fxa_id else table !! email ≫= sub_fxa_id) ∧
  ∀ other, other ≠ email → result.2 !! other = table !! other.
Proof.
  unfold get_and_sync. destruct (table !! email) as [old|]; simpl;
    (split; [apply lookup_insert_eq|]; split; [done|]; split; [done|]);
    intros other Hne; by rewrite lookup_insert_ne.
Qed.

(** X15: [get_and_sync] is idempotent: a second call with the same email,
    token and fxa id returns the same subscriber and leaves the table as the
    first call left it. *)
Theorem get_and_sync_idempotent
    (table : gmap string Subscriber) (email token : string) (fxa_id : option string) :
  get_and_sync (get_and_sync table email token fxa_id).2 email token fxa_id =
  get_and_sync table email token fxa_id.
Proof.
  unfold get_and_sync at 2 3.
  destruct (table !! email) as [old|]; simpl; unfold get_and_sync;
    rewrite lookup_insert_eq; simpl; rewrite insert_insert_eq;
    destruct (Py.truthy_opt fxa_id); reflexivity.
Qed.

(** ** Stored arguments of a failed task *)

Lemma first_values_spec (d : list (string * json)) :
  forallb (fun kv => match kv.2 with JList _ => true | _ => false end) d = true →
  match first_values d with
  | inr d' =>
      Forall2 (fun kv kv' => kv'.1 = kv.1 ∧ ∃ rest, kv.2 = JList (kv'.2 :: rest)) d d'
  | inl e => e = IndexError ∧ Exists (fun kv => kv.2 = JList []) d
  end.
Proof.
  induction d as [|[key v] rest IH]; intros Hall; [constructor|].
  simpl in Hall. apply andb_true_iff in Hall as [Hv Hrest]. specialize (IH Hrest).
  destruct v as [| | | |l|]; try discriminate Hv.
  destruct l as [|x l]; simpl.
  - split; [done|]. by left.
  - destruct (first_values rest) as [e | rest'].
    + destruct IH as [-> Hex]. split; [done|]. by right.
    + constructor; [|exact IH]. split; [done|]. by exists l.
Qed.

(** X16: [filtered_args] either returns a list that matches the stored
    arguments position by position, where an argument that is not a dict of
    lists is unchanged and a dict of lists becomes the dict with the same
    keys, in the same order, each mapped to the first element of its list,
    or it raises [IndexError], which happens only when some dict of lists
    holds an empty list. *)
Theorem filtered_args_spec (args : list json) :
  match filtered_args args with
  | inr args' =>
      Forall2 (fun a a' =>
                 if _is_query_dict a
                 then ∃ d d', a = JDict d ∧ a' = JDict d' ∧
                        Forall2 (fun kv kv' =>
                                   kv'.1 = kv.1 ∧ ∃ rest, kv.2 = JList (kv'.2 :: rest))
                          d d'
                 else a' = a)
        args args'
  | inl e =>
      e = IndexError ∧
      Exists (fun a => ∃ d, a = JDict d ∧ _is_query_dict a = true ∧
                            Exists (fun kv => kv.2 = JList []) d) args
  end.
Proof.
  induction args as [|a rest IH]; [constructor|]. simpl.
  destruct (_is_query_dict a) eqn:Hq.
  - destruct a as [| | | | |d]; try discriminate Hq.
    pose proof (first_values_spec d Hq) as Hd.
    destruct (first_values d) as [e | d'].
    + destruct Hd as [-> Hex]. split; [done|]. left. by exists d.
    + destruct (filtered_args rest) as [e | rest'].
      * destruct IH as [-> Hex]. split; [done|]. by right.
      * constructor; [|exact IH]. rewrite Hq. by exists d, d'.
  - destruct (filtered_args rest) as [e | rest'].
    + destruct IH as [-> Hex]. split; [done|]. by right.
    + constructor; [|exact IH]. by rewrite Hq.
Qed.

Lemma first_values_as_query_dict (d : list (string * json)) :
  first_values (as_query_dict d) = inr d.
Proof.
  induction d as [|[key v] rest IH]; [reflexivity|].
  change (as_query_dict ((key, v) :: rest))
    with ((key, JList [v]) :: as_query_dict rest).
  cbn [first_values]. by rewrite IH.
Qed.

Lemma is_query_dict_as_query_dict (d : list (string * json)) :
  _is_query_dict (JDict (as_query_dict d)) = true.
Proof.
  simpl. induction d as [|[key v] rest IH]; [reflexivity|]. simpl. exact IH.
Qed.

(** X17: arguments stored from QueryDicts come back as plain dicts: when
    every stored argument is a dict whose values were each wrapped in a
    one-element list, [filtered_args] returns the original dicts. *)
Theorem filtered_args_unwraps_query_dicts (ds : list (list (string * json))) :
  filtered_args (map (fun d => JDict (as_query_dict d)) ds) = inr (map JDict ds).
Proof.
  induction ds as [|d rest IH]; [reflexivity|].
  cbn [map filtered_args]. rewrite is_query_dict_as_query_dict, first_values_as_query_dict.
  by rewrite IH.
Qed.

Lemma filtered_args_plain (args : list json) :
  Forall (fun a => _is_query_dict a = false) args → filtered_args args = inr args.
Proof.
  induction 1 as [|a rest Ha Hrest IH]; [reflexivity|].
  simpl. by rewrite Ha, IH.
Qed.

Lemma pk_le_max (rows : list FailedTask) (r : FailedTask) :
  r ∈ rows → (pk r ≤ foldr Nat.max 0 (map pk rows))%nat.
Proof.
  induction rows as [|x rest IH]; intros Hin; [by apply elem_of_nil in Hin|].
  simpl. apply elem_of_cons in Hin as [-> | Hin]; [lia|]. specialize (IH Hin). lia.
Qed.





(** ** The phone book record *)

Lemma not_a_phonebook_group (k : string) :
  k ∈ ["EMAIL_ADDRESS"; "TOKEN"; "CITY"; "COUNTRY"] → k ∉ PHONEBOOK_GROUPS.
Proof.
  intros Hk Hg. apply list_elem_of_In in Hk. apply list_elem_of_In in Hg.
  simpl in Hk. destruct Hk as [<- | [<- | [<- | [<- | []]]]];
    simpl in Hg; repeat (destruct Hg as [Hg | Hg]; [discriminate Hg|]); exact Hg.
Qed.

Lemma phonebook_groups_lookup (data : gmap string string) (k : string) :
  filter (fun kv : string * string => kv.1 ∈ PHONEBOOK_GROUPS) data !! k =
  if decide (k ∈ PHONEBOOK_GROUPS) then data !! k else None.
Proof.
  destruct (decide (k ∈ PHONEBOOK_GROUPS)) as [Hin | Hout].
  - destruct (data !! k) as [v|] eqn:Hv.
    + by apply map_lookup_filter_Some.
    + apply map_lookup_filter_None. by left.
  - apply map_lookup_filter_None. right. by intros v _.
Qed.

(** X19: [update_phonebook] issues exactly one vendor call, an update of the
    PHONEBOOK table.  The record it sends carries the caller's email and
    token, the city and country of [data] when given, and, of all other keys
    of [data], exactly those that name a phone-book group; nothing else of
    [data] leaves the system, and [data] cannot replace the email or the
    token. *)
Theorem update_phonebook_record
    (E : Env) (data : gmap string string) (email token : string) (w : world) :
  ∃ record,
    vendor_log (update_phonebook E data email token w).2 =
      (vendor_log w ++ [add_record "PHONEBOOK" record])%list ∧
    record !! "EMAIL_ADDRESS" = Some email ∧
    record !! "TOKEN" = Some token ∧
    record !! "CITY" = data !! "city" ∧
    record !! "COUNTRY" = data !! "country" ∧
    ∀ k, k ∉ ["EMAIL_ADDRESS"; "TOKEN"; "CITY"; "COUNTRY"] →
         record !! k = if decide (k ∈ PHONEBOOK_GROUPS) then data !! k else None.
Proof.
  exists (phonebook_record data email token). split.
  { unfold update_phonebook. rewrite et_task_world.
    unfold update_phonebook_body, vendor_do. by destruct (vendor E _ _). }
  assert (Hfixed : ∀ k, k ∈ ["EMAIL_ADDRESS"; "TOKEN"; "CITY"; "COUNTRY"] →
            phonebook_record data email token !! k =
            copy_field data "country" "COUNTRY"
              (copy_field data "city" "CITY"
                 (<["TOKEN" := token]> (<["EMAIL_ADDRESS" := email]> ∅))) !! k).
  { intros k Hk. unfold phonebook_record. apply lookup_union_r.
    rewrite phonebook_groups_lookup.
    destruct (decide (k ∈ PHONEBOOK_GROUPS)) as [Hin|]; [|done].
    by apply not_a_phonebook_group in Hk. }
  split; [|split; [|split; [|split]]].
  - rewrite Hfixed by set_solver. unfold copy_field.
    destruct (data !! "country"), (data !! "city"); by simplify_map_eq.
  - rewrite Hfixed by set_solver. unfold copy_field.
    destruct (data !! "country"), (data !! "city"); by simplify_map_eq.
  - rewrite Hfixed by set_solver. unfold copy_field.
    destruct (data !! "country"), (data !! "city"); by simplify_map_eq.
  - rewrite Hfixed by set_solver. unfold copy_field.
    destruct (data !! "country"), (data !! "city"); by simplify_map_eq.
  - intros k Hk. unfold phonebook_record.
    rewrite lookup_union, phonebook_groups_lookup.
    assert (Hrec : copy_field data "country" "COUNTRY"
                     (copy_field data "city" "CITY"
                        (<["TOKEN" := token]> (<["EMAIL_ADDRESS" := email]> ∅))) !! k = None).
    { unfold copy_field.
      destruct (data !! "country"), (data !! "city");
        rewrite ?lookup_insert_ne by set_solver; apply lookup_empty. }
    rewrite Hrec. destruct (decide _); [|done]. by destruct (data !! k).
Qed.

(** ** Saving a newsletter *)

Lemma lstrip_starts_clean (s : string) : starts_clean (Py.lstrip s).
Proof.
  induction s as [|c s IH]; [done|]. simpl.
  destruct (Py.is_space c) eqn:Hc; [exact IH | exact Hc].
Qed.

Lemma lstrip_clean (s : string) : starts_clean s → Py.lstrip s = s.
Proof. destruct s as [|c s]; [done|]. simpl. by intros ->. Qed.

Lemma rstrip_starts_clean (s : string) : starts_clean s → starts_clean (Py.rstrip s).
Proof.
  destruct s as [|c s]; [done|]. simpl. intros Hc.
  destruct (Py.rstrip s); [by rewrite Hc | exact Hc].
Qed.

Lemma rstrip_idemp (s : string) : Py.rstrip (Py.rstrip s) = Py.rstrip s.
Proof.
  induction s as [|c s IH]; [reflexivity|]. simpl.
  destruct (Py.rstrip s) as [|c' r'] eqn:Hr.
  - destruct (Py.is_space c) eqn:Hc; [reflexivity|]. simpl. by rewrite Hc.
  - simpl. simpl in IH. by rewrite IH.
Qed.

Lemma strip_idemp (s : string) : Py.strip (Py.strip s) = Py.strip s.
Proof.
  unfold Py.strip.
  rewrite (lstrip_clean (Py.rstrip (Py.lstrip s)))
    by apply rstrip_starts_clean, lstrip_starts_clean.
  apply rstrip_idemp.
Qed.

Lemma remove_spaces_idemp (s : string) : remove_spaces (remove_spaces s) = remove_spaces s.
Proof.
  induction s as [|c s IH]; [reflexivity|]. simpl.
  destruct (Ascii.eqb c " ") eqn:Hc; [exact IH|]. simpl. by rewrite Hc, IH.
Qed.

(** X20: [Newsletter.save] normalises a row once and for all: saving a row
    that was just saved changes none of its fields. *)
Theorem Newsletter_save_idempotent (self : Newsletter) :
  Newsletter_save (Newsletter_save self) = Newsletter_save self.
Proof.
  unfold Newsletter_save. simpl.
  by rewrite !strip_idemp, remove_spaces_idemp.
Qed.

(** ** The first write of [update_user] *)

Lemma not_flag_key (E : Env) (slugs : list string) (k : string) :
  last_char k ≠ Some "G"%char → last_char k ≠ Some "E"%char → k ∉ flag_keys E slugs.
Proof.
  intros HG HE Hin. unfold flag_keys in Hin.
  apply list_elem_of_In, in_flat_map in Hin as (nl & _ & Hk).
  simpl in Hk. destruct Hk as [<- | [<- | []]].
  - apply HG. by rewrite last_char_app.
  - apply HE. by rewrite last_char_app.
Qed.

Lemma bind_cases {A B : Type} (m : M A) (k : A -> M B) (w : world) :
  (∃ e w1, m w = (inl e, w1) ∧ bind m k w = (inl e, w1)) ∨
  (∃ a w1, m w = (inr a, w1) ∧ bind m k w = k a w1).
Proof.
  unfold bind. destruct (m w) as [[e | a] w1]; [left | right]; eauto.
Qed.

Lemma fetch_user_data_world (E : Env) (email token lang : string) (w : world) :
  (fetch_user_data E email token lang w).2 = w.
Proof.
  unfold fetch_user_data.
  destruct (get_user_data E None (Some token)) as [ud|]; [|done]. by destruct (negb _).
Qed.

Lemma fetch_user_data_master (E : Env) (email token lang : string) (w w' : world)
    (ud : user_data) :
  fetch_user_data E email token lang w = (inr ud, w') →
  ud_master ud = from_option ud_master false (get_user_data E None (Some token)).
Proof.
  unfold fetch_user_data.
  destruct (get_user_data E None (Some token)) as [ud0|]; simpl.
  - destruct (negb _); [discriminate|]. unfold ret. by intros [= <- _].
  - unfold ret. by intros [= <- _].
Qed.

Lemma first_call_bind {A : Type} (E : Env) (P : list vendor_call -> Prop)
    (target_et : string) (record : gmap string string) (k : M A) (w : world) :
  P [] → adds P k →
  ∃ rest,
    vendor_log ((apply_updates E target_et record ;;; k) w).2 =
      (vendor_log w ++ add_record target_et record :: rest)%list ∧
    P rest.
Proof.
  intros Hnil Hk. unfold bind, apply_updates, vendor_do.
  destruct (vendor E (vendor_log w) _) as [e|].
  - by exists [].
  - destruct (Hk (log_call (add_record target_et record) w)) as (rest & Hrest & HP).
    exists rest. split; [|exact HP]. rewrite Hrest. simpl. by rewrite <- app_assoc.
Qed.

Lemma adds_then_ret {A B : Type} (P : list vendor_call -> Prop) (m : M A) (x : B) :
  adds P m → adds P (m ;;; ret x).
Proof.
  intros Hm w. destruct (Hm w) as (calls & Hlog & HP). exists calls. split; [|exact HP].
  unfold bind. by destruct (m w) as [[e | a] w1].
Qed.

Lemma adds_weaken {A : Type} (P Q : list vendor_call -> Prop) (m : M A) :
  (∀ calls, P calls → Q calls) → adds P m → adds Q m.
Proof.
  intros HPQ Hm w. destruct (Hm w) as (calls & Hlog & HP). exists calls. eauto.
Qed.

Lemma adds_ret {A : Type} (P : list vendor_call -> Prop) (x : A) : P [] → adds P (ret x).
Proof. intros HP w. exists []. simpl. by rewrite app_nil_r. Qed.

Lemma adds_send_welcomes (E : Env) (ud : user_data) (slugs : list string)
    (format : string) :
  adds only_sends (send_welcomes E ud slugs format).
Proof. intros w. apply send_welcomes_only_sends. Qed.

Lemma adds_send_confirm_notice (E : Env) (email token lang format : string)
    (slugs : list string) :
  adds only_sends (send_confirm_notice E email token lang format slugs).
Proof.
  intros w. unfold send_confirm_notice.
  destruct (negb _).
  - exists []. simpl. rewrite app_nil_r. split; [done | constructor].
  - match goal with
    | |- context [send_message E ?m ?e ?t ?f w] =>
        destruct (send_message_log E m e t f w) as (calls & Hlog & Hsub)
    end.
    exists calls. split; [exact Hlog|].
    apply Forall_forall. intros c Hc.
    apply (sublist_submseteq _ _) in Hsub.
    apply (elem_of_submseteq _ _ _ Hc) in Hsub.
    by apply list_elem_of_singleton in Hsub as ->.
Qed.

(** The calls of a promotion: none, or the write to the confirmation table
    followed by triggered sends. *)
Lemma adds_confirm_user_body (E : Env) (token : string) (user_data : option user_data) :
  adds (fun calls =>
          calls = [] ∨
          ∃ sends, calls = add_record (EXACTTARGET_CONFIRMATION E) {[ "TOKEN" := token ]}
                             :: sends ∧ only_sends sends)
    (confirm_user_body E token user_data).
Proof.
  intros w. unfold confirm_user_body.
  assert (Hnone : ∀ w0 : world, ∃ calls,
            vendor_log w0 = (vendor_log w0 ++ calls)%list ∧
            (calls = [] ∨
             ∃ sends, calls = add_record (EXACTTARGET_CONFIRMATION E) {[ "TOKEN" := token ]}
                                :: sends ∧ only_sends sends)).
  { intros w0. exists []. rewrite app_nil_r. split; [done | by left]. }
  destruct (match user_data with None => _ | Some _ => _ end) as [ud|]; [|apply Hnone].
  unfold bind at 1.
  destruct (ud_status ud) as [status|]; simpl; [|apply Hnone].
  destruct (String.eqb status "error"); [apply Hnone|].
  destruct (ud_confirmed ud); [apply Hnone|].
  destruct (Py.truthy_opt (ud_email ud)); simpl; [|apply Hnone].
  unfold bind at 1, apply_updates, vendor_do.
  set (c0 := add_record (EXACTTARGET_CONFIRMATION E) {[ "TOKEN" := token ]}).
  destruct (vendor E (vendor_log w) c0) as [e|]; simpl.
  { exists [c0]. split; [done|]. right. exists []. split; [done | constructor]. }
  unfold bind at 1. destruct (ud_newsletters ud) as [nls|]; simpl.
  2:{ exists [c0]. split; [done|]. right. exists []. split; [done | constructor]. }
  destruct (send_welcomes_only_sends E ud nls (default "H" (ud_format ud)) (log_call c0 w))
    as (sends & Hlog & Hall).
  exists (c0 :: sends). split.
  - rewrite Hlog. simpl. by rewrite <- app_assoc.
  - right. by exists sends.
Qed.

(** The record [update_user] starts from, before the newsletter flags. *)
Lemma base_record_lookups (E : Env) (data : gmap string string) (email token : string) :
  let record :=
    copy_field data "source_url" "SOURCE_URL"
      (copy_field data "lang" "LANGUAGE_ISO2"
         (copy_field data "country" "COUNTRY_"
            (<["MODIFIED_DATE_" := gmttime E]> (<["EMAIL_PERMISSION_STATUS_" := "I"]>
               (<["TOKEN" := token]> (<["EMAIL_ADDRESS_" := email]> ∅)))))) in
  record !! "EMAIL_ADDRESS_" = Some email ∧
  record !! "TOKEN" = Some token ∧
  record !! "EMAIL_PERMISSION_STATUS_" = Some "I" ∧
  record !! "CREATED_DATE_" = None ∧
  record !! "EMAIL_FORMAT_" = None ∧
  record !! "SubscriberKey" = None ∧
  record !! "EmailAddress" = None.
Proof.
  unfold copy_field.
  destruct (data !! "source_url"), (data !! "lang"), (data !! "country");
    by simplify_map_eq.
Qed.

Lemma fetch_user_data_token (E : Env) (email token lang : string) (w w' : world)
    (ud : user_data) :
  fetch_user_data E email token lang w = (inr ud, w') →
  ud_token ud = from_option ud_token token (get_user_data E None (Some token)).
Proof.
  unfold fetch_user_data.
  destruct (get_user_data E None (Some token)) as [ud0|]; simpl.
  - destruct (negb _); [discriminate|]. unfold ret. by intros [= <- _].
  - unfold ret. by intros [= <- _].
Qed.

Lemma update_user_first_call_lemma
    (E : Env) (data : gmap string string) (email token : string) (created : bool)
    (type : string) (optin : bool) (w : world) :
  let known := get_user_data E None (Some token) in
  let confirmed := from_option ud_confirmed false known in
  let pending := from_option ud_pending false known in
  let master := from_option ud_master false known in
  let vendor_token := from_option ud_token token known in
  let cur_newsletters : option (gset string) :=
    list_to_set <$> (known ≫= ud_newsletters) in
  let to_subscribe :=
    (parse_newsletters E ∅ type (requested_newsletters data) cur_newsletters).2.1 in
  let exempt := exempt_from_confirmation E optin to_subscribe in
  let target :=
    if confirmed then (if master then EXACTTARGET_DATA E else EXACTTARGET_OPTIN_STAGE E)
    else if exempt && negb pending then EXACTTARGET_DATA E
    else EXACTTARGET_OPTIN_STAGE E in
  let w' := (update_user_body E data email token created type optin w).2 in
  vendor_log w' = vendor_log w ∨
  ∃ record rest,
    vendor_log w' = (vendor_log w ++ add_record target record :: rest)%list ∧
    record !! "EMAIL_ADDRESS_" = Some email ∧
    record !! "TOKEN" = Some token ∧
    record !! "EMAIL_PERMISSION_STATUS_" = Some "I" ∧
    record !! "CREATED_DATE_" =
      (if confirmed || pending then None else Some (gmttime E)) ∧
    record !! "EMAIL_FORMAT_" =
      (match data !! "format" with
       | Some f => Some (if Py.startswith "T" (Py.upper f) then "T" else "H")
       | None => None
       end) ∧
    record !! "SubscriberKey" =
      (if confirmed || exempt || pending then None else Some token) ∧
    record !! "EmailAddress" =
      (if confirmed || exempt || pending then None else Some email) ∧
    ∃ sends,
      only_sends sends ∧
      (rest = sends ∨
       confirmed = false ∧ exempt = true ∧ pending = true ∧
       rest = add_record (EXACTTARGET_CONFIRMATION E) {[ "TOKEN" := vendor_token ]}
                :: sends).
Proof.
  intros known confirmed pending master vendor_token cur_newsletters to_subscribe exempt
    target w'.
  subst w'. remember (update_user_body E data email token created type optin w).2
    as wf eqn:Hw.
  unfold update_user_body in Hw.
  match type of Hw with
  | _ = (bind ?m ?k ?w0).2 =>
      destruct (bind_cases m k w0) as [(e & w1 & Hf & Hb) | (ud & w1 & Hf & Hb)];
      rewrite Hb in Hw; clear Hb;
      pose proof (fetch_user_data_world E email token
                    (default "" (copy_field data "source_url" "SOURCE_URL"
                       (copy_field data "lang" "LANGUAGE_ISO2"
                          (copy_field data "country" "COUNTRY_"
                             (<["MODIFIED_DATE_" := gmttime E]>
                                (<["EMAIL_PERMISSION_STATUS_" := "I"]>
                                   (<["TOKEN" := token]>
                                      (<["EMAIL_ADDRESS_" := email]> ∅))))))
                       !! "LANGUAGE_ISO2")) w) as Hw1;
      rewrite Hf in Hw1; simpl in Hw1; subst w1
  end.
  { left. by subst wf. }
  pose proof (fetch_user_data_master _ _ _ _ _ _ _ Hf) as Hm.
  pose proof (fetch_user_data_token _ _ _ _ _ _ _ Hf) as Htok.
  apply fetch_user_data_inr in Hf as (Hc & Hp & Hn).
  match type of Hw with
  | _ = (bind ?m ?k ?w0).2 =>
      destruct (bind_cases m k w0) as [(e & w1 & Hl & Hb) | ([ud2 lang2] & w1 & Hl & Hb)];
      rewrite Hb in Hw; clear Hb
  end.
  { left. subst wf. simpl. destruct (Py.truthy _) in Hl; [discriminate Hl|].
    unfold bind, subscript in Hl. destruct (ud_lang ud); [discriminate Hl|].
    unfold raise in Hl. by injection Hl as _ <-. }
  assert (Hud2 : w1 = w ∧ ud_confirmed ud2 = confirmed ∧ ud_pending ud2 = pending ∧
                 ud_master ud2 = master ∧ ud_token ud2 = vendor_token ∧
                 ud_newsletters ud2 = known ≫= ud_newsletters).
  { destruct (Py.truthy _) in Hl.
    - unfold ret in Hl. injection Hl as <- _ <-. simpl. done.
    - unfold bind, subscript in Hl. destruct (ud_lang ud); [|discriminate Hl].
      unfold ret in Hl. injection Hl as <- _ <-. done. }
  destruct Hud2 as (-> & Hc2 & Hp2 & Hm2 & Htok2 & Hn2). clear Hl Hc Hp Hn Hm Htok.
  pose proof (base_record_lookups E data email token) as Hbase. simpl in Hbase.
  set (r0 := copy_field data "source_url" "SOURCE_URL" _) in *.
  destruct Hbase as (Hb1 & Hb2 & Hb3 & Hb4 & Hb5 & Hb6 & Hb7).
  set (rf := match data !! "format" with
             | Some f => <["EMAIL_FORMAT_" :=
                            if Py.startswith "T" (Py.upper f) then "T" else "H"]> r0
             | None => r0
             end).
  assert (Hrf : rf !! "EMAIL_ADDRESS_" = Some email ∧ rf !! "TOKEN" = Some token ∧
                rf !! "EMAIL_PERMISSION_STATUS_" = Some "I" ∧
                rf !! "CREATED_DATE_" = None ∧
                rf !! "EMAIL_FORMAT_" =
                  (match data !! "format" with
                   | Some f => Some (if Py.startswith "T" (Py.upper f) then "T" else "H")
                   | None => None
                   end) ∧
                rf !! "SubscriberKey" = None ∧ rf !! "EmailAddress" = None).
  { unfold rf. destruct (data !! "format"); by simplify_map_eq. }
  assert (Hfmt : ∃ fmt,
            (match data !! "format" with
             | Some f =>
                 (if Py.startswith "T" (Py.upper f) then "T" else "H",
                  <["EMAIL_FORMAT_" :=
                     if Py.startswith "T" (Py.upper f) then "T" else "H"]> r0)
             | None => (default "H" (ud_format ud2), r0)
             end) = (fmt, rf)).
  { unfold rf. destruct (data !! "format"); eauto. }
  destruct Hfmt as [fmt Hfmt]. rewrite Hfmt in Hw. clear Hfmt.
  rewrite Hn2 in Hw. fold cur_newsletters in Hw.
  pose proof (parse_newsletters_lists E rf type (requested_newsletters data)
                cur_newsletters) as Hl1.
  pose proof (parse_newsletters_lists E ∅ type (requested_newsletters data)
                cur_newsletters) as Hl2.
  assert (Hkeep : ∀ k, last_char k ≠ Some "G"%char → last_char k ≠ Some "E"%char →
            (parse_newsletters E rf type (requested_newsletters data) cur_newsletters).1
              !! k = rf !! k).
  { intros k HG HE. apply parse_newsletters_keeps_key. by apply not_flag_key. }
  destruct (parse_newsletters E rf type (requested_newsletters data) cur_newsletters)
    as [rp [s u]].
  assert (Hs : s = to_subscribe).
  { unfold to_subscribe. rewrite Hl2. simpl in Hl1. by injection Hl1 as -> _. }
  subst s. clear Hl1 Hl2. simpl in Hkeep.
  fold exempt in Hw. rewrite Hc2, Hp2, Hm2 in Hw.
  destruct Hrf as (Hr1 & Hr2 & Hr3 & Hr4 & Hr5 & Hr6 & Hr7).
  assert (Hp1 : rp !! "EMAIL_ADDRESS_" = Some email) by (rewrite Hkeep; done).
  assert (Hp2' : rp !! "TOKEN" = Some token) by (rewrite Hkeep; done).
  assert (Hp3 : rp !! "EMAIL_PERMISSION_STATUS_" = Some "I") by (rewrite Hkeep; done).
  assert (Hp4 : rp !! "CREATED_DATE_" = None) by (rewrite Hkeep; done).
  assert (Hp5 : rp !! "EMAIL_FORMAT_" = rf !! "EMAIL_FORMAT_") by (rewrite Hkeep; done).
  assert (Hp6 : rp !! "SubscriberKey" = None) by (rewrite Hkeep; done).
  assert (Hp7 : rp !! "EmailAddress" = None) by (rewrite Hkeep; done).
  rewrite Hr5 in Hp5.
  assert (Hwel : ∀ (b : bool) (code : nat),
            adds only_sends
              ((if b then send_welcomes E ud2 to_subscribe fmt else ret tt) ;;; ret code)).
  { intros b code. apply adds_then_ret.
    destruct b; [apply adds_send_welcomes | apply adds_ret; constructor]. }
  assert (Hnotice : ∀ (l : string) (code : nat),
            adds only_sends
              (send_confirm_notice E email token l fmt to_subscribe ;;; ret code)).
  { intros l code. apply adds_then_ret, adds_send_confirm_notice. }
  assert (Hnil : only_sends []) by constructor.
  right. unfold target. clear target.
  destruct confirmed; simpl.
  - match type of Hw with
    | _ = (bind (apply_updates _ ?t ?r) ?k ?w0).2 =>
        destruct (first_call_bind E only_sends t r (k tt) w0) as (rest & Hrest & Hsends);
          [exact Hnil | apply Hwel |]
    end.
    exists rp, rest. subst wf. split; [exact Hrest|].
    repeat (split; [done|]). exists rest. split; [done | by left].
  - destruct exempt; simpl.
    + destruct pending; simpl.
      * match type of Hw with
        | _ = (bind (apply_updates _ ?t ?r) ?k ?w0).2 =>
            destruct (first_call_bind E
                        (fun calls =>
                           calls = [] ∨
                           ∃ sends,
                             calls = add_record (EXACTTARGET_CONFIRMATION E)
                                       {[ "TOKEN" := vendor_token ]} :: sends ∧
                             only_sends sends)
                        t r (k tt) w0) as (rest & Hrest & Hshape)
        end.
        { by left. }
        { apply adds_then_ret. intros w0. unfold confirm_user.
          rewrite call_directly_et_task_world, Htok2.
          apply adds_confirm_user_body. }
        exists rp, rest. subst wf. split; [exact Hrest|].
        repeat (split; [done|]).
        destruct Hshape as [-> | (sends & -> & Hsends)].
        -- exists []. split; [done | by left].
        -- exists sends. split; [done|]. right. done.
      * match type of Hw with
        | _ = (bind (apply_updates _ ?t ?r) ?k ?w0).2 =>
            destruct (first_call_bind E only_sends t r (k tt) w0)
              as (rest & Hrest & Hsends); [exact Hnil | apply Hwel |]
        end.
        eexists _, rest. subst wf. split; [exact Hrest|].
        split; [by simplify_map_eq|]. split; [by simplify_map_eq|].
        split; [by simplify_map_eq|]. split; [by simplify_map_eq|].
        split; [by simplify_map_eq|]. split; [by simplify_map_eq|].
        split; [by simplify_map_eq|].
        exists rest. split; [done | by left].
    + destruct pending; simpl in *.
      * match type of Hw with
        | _ = (bind (apply_updates _ ?t ?r) ?k ?w0).2 =>
            destruct (first_call_bind E only_sends t r (k tt) w0)
              as (rest & Hrest & Hsends); [exact Hnil | apply Hnotice |]
        end.
        exists rp, rest. subst wf. split; [exact Hrest|].
        repeat (split; [done|]). exists rest. split; [done | by left].
      * match type of Hw with
        | _ = (bind (apply_updates _ ?t ?r) ?k ?w0).2 =>
            destruct (first_call_bind E only_sends t r (k tt) w0)
              as (rest & Hrest & Hsends); [exact Hnil | apply Hnotice |]
        end.
        eexists _, rest. subst wf. split; [exact Hrest|].
        split; [by simplify_map_eq|]. split; [by simplify_map_eq|].
        split; [by simplify_map_eq|]. split; [by simplify_map_eq|].
        split; [by simplify_map_eq|]. split; [by simplify_map_eq|].
        split; [by simplify_map_eq|].
        exists rest. split; [done | by left].
Qed.

(** X21: the first vendor call of [update_user], when it makes one, is a
    record update, and its table is fixed by the user's state: for a
    confirmed user the master table when the user is in it and the opt-in
    table otherwise; for a user who is neither confirmed nor pending and is
    exempt from confirmation, the master table; in every other case the
    opt-in table. *)
Theorem update_user_target_table
    (E : Env) (data : gmap string string) (email token : string) (created : bool)
    (type : string) (optin : bool) (w : world) :
  let known := get_user_data E None (Some token) in
  let confirmed := from_option ud_confirmed false known in
  let pending := from_option ud_pending false known in
  let master := from_option ud_master false known in
  let cur_newsletters : option (gset string) :=
    list_to_set <$> (known ≫= ud_newsletters) in
  let to_subscribe :=
    (parse_newsletters E ∅ type (requested_newsletters data) cur_newsletters).2.1 in
  let exempt := exempt_from_confirmation E optin to_subscribe in
  let target :=
    if confirmed then (if master then EXACTTARGET_DATA E else EXACTTARGET_OPTIN_STAGE E)
    else if exempt && negb pending then EXACTTARGET_DATA E
    else EXACTTARGET_OPTIN_STAGE E in
  let w' := (update_user E data email token created type optin w).2 in
  vendor_log w' = vendor_log w ∨
  ∃ record rest,
    vendor_log w' = (vendor_log w ++ add_record target record :: rest)%list.
Proof.
  intros known confirmed pending master cur_newsletters to_subscribe exempt target w'.
  subst w'. unfold update_user. rewrite et_task_world.
  destruct (update_user_first_call_lemma E data email token created type optin w)
    as [H | (record & rest & H & _)]; [by left | right].
  by exists record, rest.
Qed.

(** X22: the record [update_user] writes first always carries the caller's
    email and token and the permission status ['I'], whatever the newsletter
    flags added to it.  It carries a creation date exactly when the user is
    neither confirmed nor pending, a format ('T' or 'H') exactly when the
    request names one, and the subscriber key and email address columns
    exactly when, in addition, the user is not exempt from confirmation. *)
Theorem update_user_sent_record
    (E : Env) (data : gmap string string) (email token : string) (created : bool)
    (type : string) (optin : bool) (w : world) :
  let known := get_user_data E None (Some token) in
  let confirmed := from_option ud_confirmed false known in
  let pending := from_option ud_pending false known in
  let cur_newsletters : option (gset string) :=
    list_to_set <$> (known ≫= ud_newsletters) in
  let to_subscribe :=
    (parse_newsletters E ∅ type (requested_newsletters data) cur_newsletters).2.1 in
  let exempt := exempt_from_confirmation E optin to_subscribe in
  let w' := (update_user E data email token created type optin w).2 in
  vendor_log w' = vendor_log w ∨
  ∃ target record rest,
    vendor_log w' = (vendor_log w ++ add_record target record :: rest)%list ∧
    record !! "EMAIL_ADDRESS_" = Some email ∧
    record !! "TOKEN" = Some token ∧
    record !! "EMAIL_PERMISSION_STATUS_" = Some "I" ∧
    record !! "CREATED_DATE_" =
      (if confirmed || pending then None else Some (gmttime E)) ∧
    record !! "EMAIL_FORMAT_" =
      (match data !! "format" with
       | Some f => Some (if Py.startswith "T" (Py.upper f) then "T" else "H")
       | None => None
       end) ∧
    record !! "SubscriberKey" =
      (if confirmed || exempt || pending then None else Some token) ∧
    record !! "EmailAddress" =
      (if confirmed || exempt || pending then None else Some email).
Proof.
  intros known confirmed pending cur_newsletters to_subscribe exempt w'.
  subst w'. unfold update_user. rewrite et_task_world.
  destruct (update_user_first_call_lemma E data email token created type optin w)
    as [H | (record & rest & H0 & H1 & H2 & H3 & H4 & H5 & H6 & H7 & _)];
    [by left | right].
  eexists _, record, rest. done.
Qed.

(** X23: when the vendor lookup for the token comes back with a status
    other than ['ok'] (a missing status counts as an error), [update_user]
    writes nothing and sends nothing: it raises [NewsletterException], and
    the task wrapper asks for a retry. *)
Theorem update_user_lookup_error
    (E : Env) (data : gmap string string) (email token : string) (created : bool)
    (type : string) (optin : bool) (w : world) (ud : user_data) :
  get_user_data E None (Some token) = Some ud →
  default "error" (ud_status ud) ≠ "ok" →
  ∃ message,
    update_user E data email token created type optin w =
      (Retry (NewsletterException message), w).
Proof.
  intros Hud Hst. apply String.eqb_neq in Hst.
  exists "Some error with Exact Target".
  unfold update_user, et_task, update_user_body, bind, fetch_user_data.
  rewrite Hud, Hst. reflexivity.
Qed.

Lemma update_user_lookup_error_witness :
  get_user_data (sample_env (only_user sample_error_user) vendor_ok) None (Some "tok-ada")
    = Some sample_error_user ∧
  default "error" (ud_status sample_error_user) ≠ "ok" ∧
  ∃ message,
    update_user (sample_env (only_user sample_error_user) vendor_ok)
      (newsletters_only "firefox-os") "ada@example.com" "tok-ada" false SUBSCRIBE false
      empty_world
    = (Retry (NewsletterException message), empty_world).
Proof.
  assert (H1 : get_user_data (sample_env (only_user sample_error_user) vendor_ok)
                 None (Some "tok-ada") = Some sample_error_user) by reflexivity.
  assert (H2 : default "error" (ud_status sample_error_user) ≠ "ok") by discriminate.
  split; [exact H1|]. split; [exact H2|].
  exact (update_user_lookup_error (sample_env (only_user sample_error_user) vendor_ok)
           (newsletters_only "firefox-os") "ada@example.com" "tok-ada" false SUBSCRIBE
           false empty_world sample_error_user H1 H2).
Defined.

(** X24: welcomes go out with the record update only for a SUBSCRIBE request
    that does not switch them off.  When the action is not SUBSCRIBE, or
    [trigger_welcome] is given and is not ['Y'], [update_user] issues no
    triggered send for a user who is already confirmed, nor for a user who is
    neither confirmed nor pending and is exempt from confirmation: its only
    vendor calls are record updates. *)
Theorem update_user_welcomes_only_on_subscribe
    (E : Env) (data : gmap string string) (email token : string) (created : bool)
    (type : string) (optin : bool) (w : world) :
  let known := get_user_data E None (Some token) in
  let confirmed := from_option ud_confirmed false known in
  let pending := from_option ud_pending false known in
  let cur_newsletters : option (gset string) :=
    list_to_set <$> (known ≫= ud_newsletters) in
  let to_subscribe :=
    (parse_newsletters E ∅ type (requested_newsletters data) cur_newsletters).2.1 in
  let exempt := exempt_from_confirmation E optin to_subscribe in
  type ≠ SUBSCRIBE ∨ (∃ v, data !! "trigger_welcome" = Some v ∧ v ≠ "Y") →
  confirmed = true ∨ (exempt = true ∧ pending = false) →
  ∃ calls,
    vendor_log (update_user E data email token created type optin w).2 =
      (vendor_log w ++ calls)%list ∧
    Forall (fun c => is_trigger_send c = false) calls.
Proof.
  intros known confirmed pending cur_newsletters to_subscribe exempt Hoff Hbranch.
  assert (Hssw : String.eqb (default "Y" (data !! "trigger_welcome")) "Y" &&
                 String.eqb type SUBSCRIBE = false).
  { apply andb_false_iff. destruct Hoff as [Ht | (v & Hv & Hne)].
    - right. by apply String.eqb_neq.
    - left. rewrite Hv. simpl. by apply String.eqb_neq. }
  unfold update_user. rewrite et_task_world.
  revert w. change (sends_nothing (update_user_body E data email token created type optin)).
  unfold update_user_body.
  eapply sends_nothing_bind;
    [apply sends_nothing_fetch_user_data
    | intros w a w' Ha; exact (fetch_user_data_inr _ _ _ _ _ _ _ Ha) |].
  intros ud (Hc & Hp & Hn).
  eapply (sends_nothing_bind _ _
            (fun ul => ud_confirmed ul.1 = confirmed ∧ ud_pending ul.1 = pending ∧
                       ud_newsletters ul.1 = known ≫= ud_newsletters)).
  { destruct (Py.truthy _); [apply sends_nothing_ret|].
    eapply sends_nothing_bind with (P := fun _ => True);
      [apply sends_nothing_subscript | done | intros; apply sends_nothing_ret]. }
  { intros w0 [ud2 l2] w1 Hl. destruct (Py.truthy _) in Hl.
    - unfold ret in Hl. injection Hl as <- _ _. done.
    - apply bind_inr in Hl as (l & w3 & _ & Hl).
      unfold ret in Hl. injection Hl as <- _ _. done. }
  intros [ud2 lang2] (Hc2 & Hp2 & Hn2). simpl in Hc2, Hp2, Hn2.
  destruct (match data !! "format" with Some _ => _ | None => _ end) as [fmt record].
  rewrite Hn2. fold cur_newsletters.
  pose proof (parse_newsletters_lists E record type (requested_newsletters data)
                cur_newsletters) as Hl1.
  pose proof (parse_newsletters_lists E ∅ type (requested_newsletters data)
                cur_newsletters) as Hl2.
  destruct (parse_newsletters E record type (requested_newsletters data) cur_newsletters)
    as [record' [s u]].
  assert (Hs : s = to_subscribe).
  { unfold to_subscribe. rewrite Hl2. simpl in Hl1. by injection Hl1 as -> _. }
  subst s. clear Hl1 Hl2.
  rewrite Hc2, Hp2, Hssw. fold exempt.
  assert (Hquiet : ∀ (t : string) (r : gmap string string) (code : nat),
            sends_nothing (apply_updates E t r ;;; ret tt ;;; ret code)).
  { intros t r code.
    eapply sends_nothing_bind with (P := fun _ => True);
      [apply sends_nothing_apply_updates | done |]. intros _ _.
    eapply sends_nothing_bind with (P := fun _ => True);
      [apply sends_nothing_ret | done | intros; apply sends_nothing_ret]. }
  destruct confirmed.
  - apply Hquiet.
  - destruct Hbranch as [Hb | [-> ->]]; [discriminate Hb|]. apply Hquiet.
Qed.

Lemma update_user_welcomes_only_on_subscribe_witness :
  (SET ≠ SUBSCRIBE ∨
   (∃ v, newsletters_only "firefox-os" !! "trigger_welcome" = Some v ∧ v ≠ "Y")) ∧
  (from_option ud_confirmed false
     (get_user_data (sample_env (only_user sample_confirmed_user) vendor_ok)
        None (Some "tok-ada")) = true ∨
   (exempt_from_confirmation (sample_env (only_user sample_confirmed_user) vendor_ok) false
      (parse_newsletters (sample_env (only_user sample_confirmed_user) vendor_ok) ∅ SET
         (requested_newsletters (newsletters_only "firefox-os"))
         (list_to_set <$>
            (get_user_data (sample_env (only_user sample_confirmed_user) vendor_ok)
               None (Some "tok-ada") ≫= ud_newsletters))).2.1 = true ∧
    from_option ud_pending false
      (get_user_data (sample_env (only_user sample_confirmed_user) vendor_ok)
         None (Some "tok-ada")) = false)) ∧
  ∃ calls,
    vendor_log
      (update_user (sample_env (only_user sample_confirmed_user) vendor_ok)
         (newsletters_only "firefox-os") "ada@example.com" "tok-ada" false SET false
         empty_world).2 = (vendor_log empty_world ++ calls)%list ∧
    Forall (fun c => is_trigger_send c = false) calls.
Proof.
  assert (H1 : SET ≠ SUBSCRIBE ∨
    (∃ v, newsletters_only "firefox-os" !! "trigger_welcome" = Some v ∧ v ≠ "Y"))
    by (left; discriminate).
  assert (H2 : from_option ud_confirmed false
     (get_user_data (sample_env (only_user sample_confirmed_user) vendor_ok)
        None (Some "tok-ada")) = true ∨
   (exempt_from_confirmation (sample_env (only_user sample_confirmed_user) vendor_ok) false
      (parse_newsletters (sample_env (only_user sample_confirmed_user) vendor_ok) ∅ SET
         (requested_newsletters (newsletters_only "firefox-os"))
         (list_to_set <$>
            (get_user_data (sample_env (only_user sample_confirmed_user) vendor_ok)
               None (Some "tok-ada") ≫= ud_newsletters))).2.1 = true ∧
    from_option ud_pending false
      (get_user_data (sample_env (only_user sample_confirmed_user) vendor_ok)
         None (Some "tok-ada")) = false))
    by (left; reflexivity).
  split; [exact H1|]. split; [exact H2|].
  exact (update_user_welcomes_only_on_subscribe
           (sample_env (only_user sample_confirmed_user) vendor_ok)
           (newsletters_only "firefox-os") "ada@example.com" "tok-ada" false SET false
           empty_world H1 H2).
Defined.

Lemma send_welcomes_none_configured_witness :
  (∀ nl, nl ∈ Newsletter_objects blank_welcome_env →
         slug nl ∈ ["beta"] → Py.strip (welcome nl) = "") ∧
  (∃ nl, nl ∈ Newsletter_objects blank_welcome_env ∧ slug nl ∈ ["beta"]) ∧
  send_welcomes blank_welcome_env sample_confirmed_user ["beta"] "H" empty_world
    = (inr tt, empty_world).
Proof.
  assert (H : ∀ nl, nl ∈ Newsletter_objects blank_welcome_env →
                    slug nl ∈ ["beta"] → Py.strip (welcome nl) = "").
  { intros nl Hin _. apply list_elem_of_In in Hin. simpl in Hin.
    destruct Hin as [<- | []]. reflexivity. }
  split; [exact H|]. split.
  { eexists. split; [apply list_elem_of_In; left; reflexivity|].
    apply list_elem_of_In. left. reflexivity. }
  exact (send_welcomes_none_configured blank_welcome_env sample_confirmed_user
           ["beta"] "H" empty_world H).
Defined.


(** X25: an UNSUBSCRIBE request subscribes to nothing, and asks to remove,
    in the order of the request, exactly the target slugs that the registry
    maps to a vendor field and that are in the current subscriptions; when
    the current subscriptions are unknown every such target is removed. *)
Theorem parse_newsletters_UNSUBSCRIBE
    (E : Env) (record : gmap string string) (newsletters : list string)
    (cur : option (gset string)) :
  (parse_newsletters E record UNSUBSCRIBE newsletters cur).2 =
  ([],
   List.filter (fun nl => bool_decide (has_vendor_field E nl) &&
                          match cur with
                          | Some c => bool_decide (nl ∈ c)
                          | None => true
                          end) newsletters).
Proof.
  rewrite parse_newsletters_lists. simpl. f_equal.
  unfold unsubs_of. simpl.
  apply filter_ext. intros nl. f_equal.
  destruct (Py.truthy_opt (newsletter_field E nl)) eqn:Hb; symmetry.
  - by apply bool_decide_eq_true.
  - apply bool_decide_eq_false. unfold has_vendor_field. congruence.
Qed.

(** X26: [update_user] writes before it sends, and writes at most twice.
    Its first vendor call, if any, is the update of the user's record; a
    second record update follows only when a pending user who is exempt from
    confirmation is promoted, and it stores the token the vendor holds for
    the user in the confirmation table; every other call is a triggered
    send. *)
Theorem update_user_call_sequence
    (E : Env) (data : gmap string string) (email token : string) (created : bool)
    (type : string) (optin : bool) (w : world) :
  let known := get_user_data E None (Some token) in
  let confirmed := from_option ud_confirmed false known in
  let pending := from_option ud_pending false known in
  let vendor_token := from_option ud_token token known in
  let cur_newsletters : option (gset string) :=
    list_to_set <$> (known ≫= ud_newsletters) in
  let to_subscribe :=
    (parse_newsletters E ∅ type (requested_newsletters data) cur_newsletters).2.1 in
  let exempt := exempt_from_confirmation E optin to_subscribe in
  let w' := (update_user E data email token created type optin w).2 in
  vendor_log w' = vendor_log w ∨
  ∃ target record sends,
    only_sends sends ∧
    (vendor_log w' = (vendor_log w ++ add_record target record :: sends)%list ∨
     confirmed = false ∧ exempt = true ∧ pending = true ∧
     vendor_log w' =
       (vendor_log w ++
        add_record target record ::
        add_record (EXACTTARGET_CONFIRMATION E) {[ "TOKEN" := vendor_token ]} ::
        sends)%list).
Proof.
  intros known confirmed pending vendor_token cur_newsletters to_subscribe exempt w'.
  subst w'. unfold update_user. rewrite et_task_world.
  destruct (update_user_first_call_lemma E data email token created type optin w)
    as [H | (record & rest & H0 & _ & _ & _ & _ & _ & _ & _ & sends & Hs & Hshape)];
    [by left | right].
  eexists _, record, sends. split; [exact Hs|].
  destruct Hshape as [-> | (Hc & He & Hp & ->)]; [by left | right; done].
Qed.

